(** * Telemetry display application (main.py): decoding and windowing

    A shallow embedding of [BackendWorker.handle_xbee_message] and of
    [LiveGraphWindow.update_data] / [LiveGraphWindow.update_plot], with the
    Python built-ins they call ([bytes.decode], [str.strip], [str.split],
    [float], list slicing, [range], [dict.get]) written out. *)

From Stdlib Require Import ZArith Lia Strings.Byte.
From stdpp Require Import gmap strings list.

Local Open Scope Z_scope.

(** ** Python text and bytes *)

(** A Python [str] is a sequence of Unicode code points; the payload of an
    XBee message is a [bytearray]. *)
Abbreviation text := (list Z).
Abbreviation bytes := (list byte).

Module Py.

Definition byte_val (b : byte) : Z := Z.of_N (Byte.to_N b).

(** The code points of an ASCII literal. *)
Definition text_of (s : string) : text :=
  byte_val <$> String.list_byte_of_string s.

Definition in_range (lo hi c : Z) : bool := (lo <=? c) && (c <=? hi).

(** *** [bytes.decode()]: strict UTF-8 *)

Definition is_cont (b : Z) : bool := in_range 0x80 0xBF b.

(** Well-formed byte sequences only: no overlong forms, no surrogates,
    nothing above U+10FFFF.  [None] is [UnicodeDecodeError]. *)
Fixpoint utf8_decode (bs : list Z) : option text :=
  match bs with
  | [] => Some []
  | b0 :: r0 =>
    if b0 <? 0x80 then cons b0 <$> utf8_decode r0
    else if in_range 0xC2 0xDF b0 then
      match r0 with
      | b1 :: r1 =>
        if is_cont b1
        then cons ((b0 - 0xC0) * 64 + (b1 - 0x80)) <$> utf8_decode r1
        else None
      | _ => None
      end
    else if in_range 0xE0 0xEF b0 then
      match r0 with
      | b1 :: b2 :: r2 =>
        let lo := if b0 =? 0xE0 then 0xA0 else 0x80 in
        let hi := if b0 =? 0xED then 0x9F else 0xBF in
        if in_range lo hi b1 && is_cont b2
        then cons ((b0 - 0xE0) * 4096 + (b1 - 0x80) * 64 + (b2 - 0x80))
               <$> utf8_decode r2
        else None
      | _ => None
      end
    else if in_range 0xF0 0xF4 b0 then
      match r0 with
      | b1 :: b2 :: b3 :: r3 =>
        let lo := if b0 =? 0xF0 then 0x90 else 0x80 in
        let hi := if b0 =? 0xF4 then 0x8F else 0xBF in
        if in_range lo hi b1 && is_cont b2 && is_cont b3
        then cons ((b0 - 0xF0) * 262144 + (b1 - 0x80) * 4096
                   + (b2 - 0x80) * 64 + (b3 - 0x80))
               <$> utf8_decode r3
        else None
      | _ => None
      end
    else None
  end.

Definition decode (data : bytes) : option text :=
  utf8_decode (byte_val <$> data).

(** *** [str.strip()] *)

(** [str.isspace] for one character: the ASCII separators and the Unicode
    characters of bidirectional type WS, B or S or of category Zs. *)
Definition isspace (c : Z) : bool :=
  in_range 0x09 0x0D c || in_range 0x1C 0x1F c || (c =? 0x20)
  || (c =? 0x85) || (c =? 0xA0) || (c =? 0x1680)
  || in_range 0x2000 0x200A c || (c =? 0x2028) || (c =? 0x2029)
  || (c =? 0x202F) || (c =? 0x205F) || (c =? 0x3000).

Fixpoint lstrip_with (sp : Z -> bool) (s : text) : text :=
  match s with
  | c :: r => if sp c then lstrip_with sp r else s
  | [] => []
  end.

Definition strip_with (sp : Z -> bool) (s : text) : text :=
  reverse (lstrip_with sp (reverse (lstrip_with sp s))).

Definition strip : text -> text := strip_with isspace.

(** *** [str.split(sep)] for a one-character separator *)

(** Never returns an empty list: [''.split(',') == ['']]. *)
Fixpoint split (sep : Z) (s : text) : list text :=
  match s with
  | [] => [[]]
  | c :: r =>
    if c =? sep then [] :: split sep r
    else match split sep r with
         | p :: ps => (c :: p) :: ps
         | [] => [[c]]
         end
  end.

(** *** [float(str)] *)

(** The value of a [float], a C double.  [FDec neg m e] stands for the
    double nearest to [(-1)^neg * m * 10^e] (round-half-even), which is an
    infinity when that number is out of range; the literal is kept
    unrounded. *)
Inductive double : Set :=
  | FNan (neg : bool)
  | FInf (neg : bool)
  | FDec (neg : bool) (m : Z) (e : Z).

(** [math.isfinite]: a decimal rounds to a finite double exactly when its
    magnitude is below [2^1024 - 2^970], the midpoint between the largest
    double and [2^1024]. *)
Definition isfinite (x : double) : bool :=
  match x with
  | FNan _ | FInf _ => false
  | FDec _ m e =>
    let bound := 2 ^ 1024 - 2 ^ 970 in
    if 0 <=? e then m * 10 ^ e <? bound else m <? bound * 10 ^ (- e)
  end.

(** [Py_UNICODE_TODECIMAL]: the characters with a decimal-digit value
    (category Nd) come in runs of ten, one run per zero digit below
    (Unicode 14.0). *)
Definition decimal_zeros : list Z :=
  [0x30; 0x660; 0x6F0; 0x7C0; 0x966; 0x9E6; 0xA66; 0xAE6; 0xB66; 0xBE6;
   0xC66; 0xCE6; 0xD66; 0xDE6; 0xE50; 0xED0; 0xF20; 0x1040; 0x1090;
   0x17E0; 0x1810; 0x1946; 0x19D0; 0x1A80; 0x1A90; 0x1B50; 0x1BB0;
   0x1C40; 0x1C50; 0xA620; 0xA8D0; 0xA900; 0xA9D0; 0xA9F0; 0xAA50;
   0xABF0; 0xFF10; 0x104A0; 0x10D30; 0x11066; 0x110F0; 0x11136;
   0x111D0; 0x112F0; 0x11450; 0x114D0; 0x11650; 0x116C0; 0x11730;
   0x118E0; 0x11950; 0x11C50; 0x11D50; 0x11DA0; 0x16A60; 0x16AC0;
   0x16B50; 0x1D7CE; 0x1D7D8; 0x1D7E2; 0x1D7EC; 0x1D7F6; 0x1E140;
   0x1E2F0; 0x1E950; 0x1FBF0].

Definition to_decimal (c : Z) : option Z :=
  (fun z => c - z) <$> List.find (fun z => in_range z (z + 9) c) decimal_zeros.

(** [_PyUnicode_TransformDecimalAndSpaceToASCII]: an ASCII string is passed
    on as it is; otherwise spaces become [' '], decimal digits their ASCII
    digit, and the first other character from U+007F on becomes ['?'] and
    ends the string. *)
Fixpoint transform_chars (s : text) : text :=
  match s with
  | [] => []
  | c :: r =>
    if c <? 127 then c :: transform_chars r
    else if isspace c then 0x20 :: transform_chars r
    else match to_decimal c with
         | Some d => (0x30 + d) :: transform_chars r
         | None => [0x3F]
         end
  end.

Definition transform_decimal_and_space (s : text) : text :=
  if forallb (fun c => c <? 128) s then s else transform_chars s.

Definition is_digit (c : Z) : bool := in_range 0x30 0x39 c.

(** [_Py_string_to_number_with_underscores]: a string without ['_'] goes
    on unchanged; otherwise every underscore must stand between two
    digits, and the underscores are removed.  [None] is [ValueError]; an
    embedded NUL character is one on either path. *)
Fixpoint drop_underscores (prev : Z) (s : text) : option text :=
  match s with
  | [] => if prev =? 0x5F then None else Some []
  | c :: r =>
    if c =? 0x5F then
      if is_digit prev then drop_underscores c r else None
    else if (prev =? 0x5F) && negb (is_digit c) then None
    else if c =? 0 then None
    else cons c <$> drop_underscores c r
  end.

Definition without_underscores (s : text) : option text :=
  if existsb (fun c => c =? 0x5F) s then drop_underscores 0 s
  else Some s.

(** C's [isspace] in the C locale ([Py_ISSPACE]). *)
Definition c_isspace (c : Z) : bool := in_range 0x09 0x0D c || (c =? 0x20).

Definition parse_sign (s : text) : bool * text :=
  match s with
  | c :: r => if c =? 0x2D then (true, r)
              else if c =? 0x2B then (false, r) else (false, s)
  | [] => (false, s)
  end.

(** The leading decimal digits of [s], as their values, and what follows. *)
Fixpoint span_digits (s : text) : list Z * text :=
  match s with
  | c :: r => if is_digit c
              then let '(ds, t) := span_digits r in ((c - 0x30) :: ds, t)
              else ([], s)
  | [] => ([], [])
  end.

Definition digits_value (ds : list Z) : Z :=
  foldl (fun acc d => 10 * acc + d) 0 ds.

(** [e] or [E], an optional sign and at least one digit; anything else
    is no exponent, and nothing is consumed. *)
Definition parse_exponent (s : text) : Z * text :=
  match s with
  | c :: r =>
    if (c =? 0x65) || (c =? 0x45) then
      let '(neg, r1) := parse_sign r in
      let '(ds, r2) := span_digits r1 in
      match ds with
      | [] => (0, s)
      | _ => ((if neg then - digits_value ds else digits_value ds), r2)
      end
    else (0, s)
  | [] => (0, s)
  end.

(** [_Py_dg_strtod]: the longest prefix that reads as
    [[sign] digits [. digits] [exponent]] with at least one digit in the
    mantissa, and the rest of the string.  [None]: no number here. *)
Definition strtod (s : text) : option (double * text) :=
  let '(neg, s1) := parse_sign s in
  let '(ip, s2) := span_digits s1 in
  let '(fp, s3) := match s2 with
                   | c :: r => if c =? 0x2E then span_digits r else ([], s2)
                   | [] => ([], s2)
                   end in
  match ip ++ fp with
  | [] => None
  | ds =>
    let '(ex, s4) := parse_exponent s3 in
    Some (FDec neg (digits_value ds) (ex - Z.of_nat (length fp)), s4)
  end.

Definition lower (c : Z) : Z := if in_range 0x41 0x5A c then c + 32 else c.

(** [s] starts with the lower-case word [w], in any case. *)
Fixpoint case_insensitive_match (w s : text) : option text :=
  match w, s with
  | [], _ => Some s
  | a :: w', c :: s' =>
    if lower c =? a then case_insensitive_match w' s' else None
  | _ :: _, [] => None
  end.

(** [_Py_parse_inf_or_nan]: [[sign] inf], [[sign] infinity] or
    [[sign] nan], in any case, and the rest of the string. *)
Definition parse_inf_or_nan (s : text) : option (double * text) :=
  let '(neg, s1) := parse_sign s in
  match case_insensitive_match (text_of "inf") s1 with
  | Some s2 =>
    match case_insensitive_match (text_of "inity") s2 with
    | Some s3 => Some (FInf neg, s3)
    | None => Some (FInf neg, s2)
    end
  | None =>
    match case_insensitive_match (text_of "nan") s1 with
    | Some s2 => Some (FNan neg, s2)
    | None => None
    end
  end.

(** [PyOS_string_to_double] as [float] calls it: overflow is no error. *)
Definition string_to_double (s : text) : option (double * text) :=
  match strtod s with
  | Some r => Some r
  | None => parse_inf_or_nan s
  end.

(** [float_from_string_inner]: surrounding C white space is skipped, and
    the number must fill what is left. *)
Definition float_from_string_inner (s : text) : option double :=
  match strip_with c_isspace s with
  | [] => None
  | s' =>
    match string_to_double s' with
    | Some (x, []) => Some x
    | _ => None
    end
  end.

(** [float(s)] for a string [s]; [None] is [ValueError]. *)
Definition float_of (s : text) : option double :=
  s' ← without_underscores (transform_decimal_and_space s);
  float_from_string_inner s'.

(** *** List slicing and [range] *)

(** [l[start:]]: a negative start counts from the end, and both ends are
    clamped to the list. *)
Definition slice_from {A} (start : Z) (l : list A) : list A :=
  let n := Z.of_nat (length l) in
  let lo := if start <? 0 then Z.max (start + n) 0 else Z.min start n in
  drop (Z.to_nat lo) l.

(** [list(range(a, b))]. *)
Definition range (a b : Z) : list Z := seqZ a (b - a).

Definition len {A} (l : list A) : Z := Z.of_nat (length l).

End Py.

(** ** Values carried by the signal *)

(** The floats made by the worker, and the integer [0] that
    [dict.get(key, 0)] falls back to. *)
Inductive value : Set :=
  | VInt (n : Z)
  | VFloat (x : Py.double).

(** ** BackendWorker *)

Inductive exception : Set :=
  | UnicodeDecodeError
  | ValueError (s : text).   (* could not convert string to float: s *)

(** What one call of [handle_xbee_message] does that can be seen from
    outside: it emits [sensor_data_signal], or it prints one of its two
    diagnostics. *)
Inductive outcome : Type :=
  | Emit (sensor_data : gmap string value)
  | UnexpectedFormat (data_str : text)
  | ErrorProcessing (e : exception).

#[local] Instance exception_bind : MBind (sum exception) :=
  fun _ _ f r => match r with inl e => inl e | inr a => f a end.

Definition float (s : text) : exception + value :=
  match Py.float_of s with
  | Some x => inr (VFloat x)
  | None => inl (ValueError s)
  end.

(** The dictionary display evaluates its entries in the order written:
    [parts[1]] is converted first. *)
Definition sensor_data_of (p0 p1 p2 p3 : text)
  : exception + gmap string value :=
  command ← float p1;
  setpoint ← float p0;
  measurement1 ← float p2;
  measurement2 ← float p3;
  inr (<["measurement2" := measurement2]>
       (<["measurement1" := measurement1]>
        (<["setpoint" := setpoint]>
         (<["command" := command]> ∅)))).

Definition handle_xbee_message (data : bytes) : outcome :=
  match Py.decode data with
  | None => ErrorProcessing UnicodeDecodeError
  | Some s =>
    let data_str := Py.strip s in
    match Py.split 0x2C data_str with
    | [p0; p1; p2; p3] =>
      match sensor_data_of p0 p1 p2 p3 with
      | inr sensor_data => Emit sensor_data
      | inl e => ErrorProcessing e
      end
    | _ => UnexpectedFormat data_str
    end
  end.

(** ** LiveGraphWindow *)

Record LiveGraphWindow : Type := {
  window_size : Z;
  data : gmap string (list value);
  curves : list string;   (* the keys of [self.curves], in order *)
}.

Definition channels : list string :=
  ["command"; "setpoint"; "measurement1"; "measurement2"].

(** [__init__], with the window size it assigns left open. *)
Definition new_window (n : Z) : LiveGraphWindow :=
  {| window_size := n;
     data := <["measurement2" := []]>
             (<["measurement1" := []]>
              (<["setpoint" := []]>
               (<["command" := []]> ∅)));
     curves := channels |}.

Definition init : LiveGraphWindow := new_window 100.

Definition update_data (sensor_data : gmap string value)
    (w : LiveGraphWindow) : LiveGraphWindow :=
  {| window_size := window_size w;
     data := map_imap
               (fun key l => Some (l ++ [default (VInt 0) (sensor_data !! key)]))
               (data w);
     curves := curves w |}.

(** The body of the loop of [update_plot] for one curve: the arguments of
    [curve.setData].  [None] is the [KeyError] of [self.data[key]]. *)
Definition plot_channel (w : LiveGraphWindow) (key : string)
  : option (list Z * list value) :=
  full_data ← data w !! key;
  let y := if Py.len full_data >=? window_size w
           then Py.slice_from (- window_size w) full_data
           else full_data in
  let x_start := Py.len full_data - Py.len y in
  let x := Py.range x_start (x_start + Py.len y) in
  Some (x, y).

Definition update_plot (w : LiveGraphWindow)
  : option (list (string * (list Z * list value))) :=
  mapM (fun key => pair key <$> plot_channel w key) (curves w).

(** What a dictionary contributes to a channel: [sensor_data.get(key, 0)]. *)
Definition channel_value (key : string) (sensor_data : gmap string value)
  : value :=
  default (VInt 0) (sensor_data !! key).

(** The list behind a channel, and the number of samples the channel has
    received: the length of that list, which is what [update_plot] takes
    the global index from. *)
Definition stored (w : LiveGraphWindow) (key : string) : list value :=
  default [] (data w !! key).

Definition total_received (w : LiveGraphWindow) (key : string) : Z :=
  Py.len (stored w key).

(** [update_data] called once for each dictionary of [ds], in order. *)
Definition appends (ds : list (gmap string value)) (w : LiveGraphWindow)
  : LiveGraphWindow :=
  foldl (fun w d => update_data d w) w ds.

(** The slice [update_plot] shows of a list, for a window of [n] points. *)
Definition shown (n : Z) (l : list value) : list value :=
  if Py.len l >=? n then Py.slice_from (- n) l else l.

(** ** The worker connected to the window *)

(** [sensor_data_signal] is connected to [update_data]: the window sees
    the emitted dictionaries one at a time, in the order of emission. *)
Inductive diagnostic : Set :=
  | PrintUnexpected (data_str : text)
  | PrintError (e : exception).

Record app : Type := {
  window : LiveGraphWindow;
  emitted : list (gmap string value);
  printed : list diagnostic;
}.

Definition start (w : LiveGraphWindow) : app :=
  {| window := w; emitted := []; printed := [] |}.

Definition on_message (a : app) (data : bytes) : app :=
  match handle_xbee_message data with
  | Emit sensor_data =>
    {| window := update_data sensor_data (window a);
       emitted := emitted a ++ [sensor_data];
       printed := printed a |}
  | UnexpectedFormat data_str =>
    {| window := window a; emitted := emitted a;
       printed := printed a ++ [PrintUnexpected data_str] |}
  | ErrorProcessing e =>
    {| window := window a; emitted := emitted a;
       printed := printed a ++ [PrintError e] |}
  end.

Definition run (frames : list bytes) (a : app) : app :=
  foldl on_message a frames.

Definition frame (s : string) : bytes := String.list_byte_of_string s.

(** What a frame makes the worker emit, and what it makes it print. *)
Definition emission (data : bytes) : option (gmap string value) :=
  match handle_xbee_message data with
  | Emit sensor_data => Some sensor_data
  | _ => None
  end.

Definition diagnosis (data : bytes) : option diagnostic :=
  match handle_xbee_message data with
  | Emit _ => None
  | UnexpectedFormat data_str => Some (PrintUnexpected data_str)
  | ErrorProcessing e => Some (PrintError e)
  end.


(** ** Helpers for stating properties *)

(** [sep.join(parts)]. *)
Fixpoint join (sep : Z) (parts : list text) : text :=
  match parts with
  | [] => []
  | [p] => p
  | p :: ps => p ++ sep :: join sep ps
  end.

(** The number of occurrences of [c] in [s]: [s.count(c)]. *)
Definition count (c : Z) (s : text) : nat := count_occ Z.eq_dec s c.

Definition is_float (v : value) : bool :=
  match v with VFloat _ => true | VInt _ => false end.

(** [float] raises [ValueError] on [q]. *)
Definition rejected (q : text) : bool :=
  match Py.float_of q with None => true | Some _ => false end.

(** The bytes that occur in no well-formed UTF-8 sequence. *)
Definition never_in_utf8 (b : Z) : bool :=
  (b =? 0xC0) || (b =? 0xC1) || Py.in_range 0xF5 0xFF b.

(** A byte that is a whitespace character by itself: tab, line feed,
    vertical tab, form feed, carriage return, the four separators
    0x1C..0x1F, or space. *)
Definition ascii_space (b : byte) : bool :=
  (Py.byte_val b <? 0x80) && Py.isspace (Py.byte_val b).

(** ** BackendWorker: the device life cycle *)

(** [__init__], [start] and [stop] drive an [XBeeDevice] of the digi-xbee
    library.  Of the device only what the worker reads or changes is kept:
    the port and baud rate it was made with, whether it is open, and the
    calls made on it.  [open] raises when the port cannot be opened; the
    flag [port_ok] of [start] says whether it can. *)
Module Worker.

Inductive device_call : Set := Open | AddDataReceivedCallback | Close.

Record XBeeDevice : Type := {
  port : string;
  baud_rate : Z;
  is_open : bool;
}.

Record BackendWorker : Type := {
  xbee_port : string;
  xbee_baud_rate : Z;
  xbee : option XBeeDevice;      (* [None] is Python's [None] *)
  calls : list device_call;      (* the calls made on devices so far *)
}.

(** [BackendWorker(xbee_port, xbee_baud_rate)]. *)
Definition init (xbee_port : string) (xbee_baud_rate : Z) : BackendWorker :=
  {| xbee_port := xbee_port; xbee_baud_rate := xbee_baud_rate;
     xbee := None; calls := [] |}.

(** The default of the keyword argument [xbee_baud_rate]. *)
Definition default_baud_rate : Z := 115200.

(** [start]: the device is assigned to [self.xbee] before it is opened,
    and the callback is registered only when [open] has returned. *)
Definition start (port_ok : bool) (w : BackendWorker) : BackendWorker :=
  let dev := {| port := xbee_port w; baud_rate := xbee_baud_rate w;
                is_open := false |} in
  if port_ok then
    {| xbee_port := xbee_port w; xbee_baud_rate := xbee_baud_rate w;
       xbee := Some {| port := port dev; baud_rate := baud_rate dev;
                       is_open := true |};
       calls := calls w ++ [Open; AddDataReceivedCallback] |}
  else
    {| xbee_port := xbee_port w; xbee_baud_rate := xbee_baud_rate w;
       xbee := Some dev;
       calls := calls w ++ [Open] |}.

(** [stop]: [close] is called only on a device that is there and open. *)
Definition stop (w : BackendWorker) : BackendWorker :=
  match xbee w with
  | Some dev =>
    if is_open dev then
      {| xbee_port := xbee_port w; xbee_baud_rate := xbee_baud_rate w;
         xbee := Some {| port := port dev; baud_rate := baud_rate dev;
                         is_open := false |};
         calls := calls w ++ [Close] |}
    else w
  | None => w
  end.

(** One step of a worker's life: a [start], with the port available or
    not, or a [stop]. *)
Inductive step : Set := Start (port_ok : bool) | Stop.

Definition do_step (w : BackendWorker) (st : step) : BackendWorker :=
  match st with
  | Start port_ok => start port_ok w
  | Stop => stop w
  end.

Definition life (steps : list step) (w : BackendWorker) : BackendWorker :=
  foldl do_step w steps.

#[global] Instance device_call_eq_dec : EqDecision device_call.
Proof. solve_decision. Defined.

(** How many times the call [c] has been made. *)
Definition made (c : device_call) (w : BackendWorker) : nat :=
  count_occ device_call_eq_dec (calls w) c.

(** Whether the worker refers to a device that is open. *)
Definition open_now (w : BackendWorker) : bool :=
  match xbee w with Some dev => is_open dev | None => false end.

(** The steps in which a port is opened. *)
Definition opens (st : step) : bool :=
  match st with Start port_ok => port_ok | Stop => false end.

(** What every step keeps: [close] has been called only on open devices,
    and a device is open only after its callback was registered. *)
Definition life_inv (w : BackendWorker) : Prop :=
  (made Close w + (if open_now w then 1 else 0)
   <= made AddDataReceivedCallback w)%nat
  /\ (made AddDataReceivedCallback w <= made Open w)%nat.

End Worker.

(** * Properties of the window *)

Section window_facts.
Implicit Types (w : LiveGraphWindow) (d : gmap string value).
Implicit Types (ds : list (gmap string value)) (key : string).

Lemma update_data_lookup d w key :
  data (update_data d w) !! key
  = (fun l => l ++ [channel_value key d]) <$> data w !! key.
Proof.
  unfold update_data, channel_value; simpl.
  rewrite map_lookup_imap. by destruct (data w !! key).
Qed.

Lemma appends_cons d ds w :
  appends (d :: ds) w = appends ds (update_data d w).
Proof. reflexivity. Qed.

Lemma appends_lookup ds w key :
  data (appends ds w) !! key
  = (fun l => l ++ (channel_value key <$> ds)) <$> data w !! key.
Proof.
  revert w. induction ds as [|d ds IH]; intros w.
  - simpl. destruct (data w !! key); simpl; [|done]. by rewrite app_nil_r.
  - rewrite appends_cons, IH, update_data_lookup.
    destruct (data w !! key); simpl; [|done]. by rewrite <- app_assoc.
Qed.

Lemma appends_window_size ds w :
  window_size (appends ds w) = window_size w.
Proof.
  revert w. induction ds as [|d ds IH]; intros w; [done|].
  by rewrite appends_cons, IH.
Qed.

Lemma appends_curves ds w : curves (appends ds w) = curves w.
Proof.
  revert w. induction ds as [|d ds IH]; intros w; [done|].
  by rewrite appends_cons, IH.
Qed.

Lemma channels_cases key :
  key ∈ channels ->
  key = "command"%string \/ key = "setpoint"%string
  \/ key = "measurement1"%string \/ key = "measurement2"%string.
Proof. unfold channels. rewrite !elem_of_cons, elem_of_nil. tauto. Qed.

Lemma new_window_lookup n key :
  key ∈ channels -> data (new_window n) !! key = Some [].
Proof.
  intros Hk. destruct (channels_cases key Hk) as [-> | [-> | [-> | ->]]];
    reflexivity.
Qed.

Lemma stored_appends n ds key :
  key ∈ channels ->
  data (appends ds (new_window n)) !! key = Some (channel_value key <$> ds).
Proof.
  intros Hk. by rewrite appends_lookup, new_window_lookup.
Qed.

Lemma len_app {A} (l k : list A) : Py.len (l ++ k) = Py.len l + Py.len k.
Proof. unfold Py.len. rewrite length_app. lia. Qed.

End window_facts.

Section plot_facts.
Implicit Types (w : LiveGraphWindow) (key : string) (l : list value).

Lemma range_seqZ a n : Py.range a (a + n) = seqZ a n.
Proof. unfold Py.range. f_equal. lia. Qed.

Lemma plot_channel_eq w key l :
  data w !! key = Some l ->
  plot_channel w key
  = Some (seqZ (Py.len l - Py.len (shown (window_size w) l))
               (Py.len (shown (window_size w) l)),
          shown (window_size w) l).
Proof.
  intros Hl. unfold plot_channel. rewrite Hl. simpl.
  by rewrite range_seqZ.
Qed.

Lemma slice_from_last n l :
  1 <= n <= Py.len l ->
  Py.slice_from (- n) l = drop (Z.to_nat (Py.len l - n)) l.
Proof.
  unfold Py.slice_from, Py.len. intros Hn.
  destruct (Z.ltb_spec (- n) 0); [|lia].
  f_equal. lia.
Qed.

Lemma shown_last n l :
  1 <= n ->
  shown n l = drop (Z.to_nat (Py.len l - n)) l.
Proof.
  intros Hn. unfold shown.
  destruct (Z.geb_spec (Py.len l) n).
  - apply slice_from_last. lia.
  - replace (Z.to_nat (Py.len l - n)) with 0%nat by lia. done.
Qed.

Lemma shown_len n l : 1 <= n -> Py.len (shown n l) = Z.min (Py.len l) n.
Proof.
  intros Hn. rewrite shown_last by done.
  unfold Py.len. rewrite length_drop. lia.
Qed.

(** Whatever the window size, the slice is a suffix of the list. *)
Lemma shown_le n l : Py.len (shown n l) <= Py.len l.
Proof.
  unfold shown, Py.slice_from, Py.len.
  destruct (_ >=? _); [|lia]. rewrite length_drop. lia.
Qed.

Lemma shown_nil n : shown n [] = [].
Proof.
  unfold shown, Py.slice_from.
  destruct (_ >=? _); [apply drop_nil|done].
Qed.

End plot_facts.

(** * The claims about the window *)

(** C9: [update_plot] on a window that has received nothing calls
    [setData] with empty [x] and [y] for each of the four channels, and
    raises nothing; this holds for every window size. *)
Theorem update_plot_before_any_data (n : Z) :
  update_plot (new_window n)
  = Some [("command"%string, ([], [])); ("setpoint"%string, ([], []));
          ("measurement1"%string, ([], [])); ("measurement2"%string, ([], []))]
    /\ update_plot init
  = Some [("command"%string, ([], [])); ("setpoint"%string, ([], []));
          ("measurement1"%string, ([], [])); ("measurement2"%string, ([], []))].
Proof.
  assert (Hempty : forall m key, key ∈ channels ->
            plot_channel (new_window m) key = Some ([], [])).
  { intros m key Hk.
    rewrite (plot_channel_eq _ _ []) by by apply new_window_lookup.
    by rewrite shown_nil. }
  assert (Hall : forall m, update_plot (new_window m) = Some
            [("command"%string, ([], [])); ("setpoint"%string, ([], []));
             ("measurement1"%string, ([], []));
             ("measurement2"%string, ([], []))]).
  { intros m. unfold update_plot; simpl.
    rewrite !Hempty by (unfold channels; set_solver). reflexivity. }
  split; apply Hall.
Qed.

(** C10: for every dictionary, [update_data] appends to every list of
    [self.data] exactly one element, the dictionary's value for the key or
    [0] when the key is absent; it changes nothing else and cannot raise.
    In every window reached from [__init__] the four channel lists are
    there, so each of them grows by that one element. *)
Theorem update_data_appends_one_everywhere
    (d : gmap string value) (w : LiveGraphWindow) (key : string) :
  data (update_data d w) !! key
  = (fun l => l ++ [default (VInt 0) (d !! key)]) <$> data w !! key
  /\ window_size (update_data d w) = window_size w
  /\ curves (update_data d w) = curves w
  /\ (forall n ds,
        Forall (fun k =>
                  exists l, data (appends ds (new_window n)) !! k = Some l
                    /\ data (update_data d (appends ds (new_window n))) !! k
                       = Some (l ++ [default (VInt 0) (d !! k)]))
               channels)
  /\ Forall (fun k => data (update_data ∅ init) !! k = Some [VInt 0]) channels.
Proof.
  split; [apply update_data_lookup|].
  split; [done|]. split; [done|]. split.
  - intros n ds. apply Forall_forall. intros k Hk.
    exists (channel_value k <$> ds). split; [by apply stored_appends|].
    rewrite update_data_lookup, stored_appends by done. done.
  - apply Forall_forall. intros k Hk.
    rewrite update_data_lookup. unfold init.
    rewrite new_window_lookup by done. done.
Qed.

(** C6: after [update_data] has been called M times on a fresh window,
    every one of the four channels has received M samples, and one more
    call adds one to each of the four counts. *)
Theorem total_received_equal_after_appends
    (n : Z) (ds : list (gmap string value)) :
  Forall (fun key => total_received (appends ds (new_window n)) key
                     = Py.len ds) channels
  /\ forall d,
      Forall (fun key =>
                total_received (update_data d (appends ds (new_window n))) key
                = total_received (appends ds (new_window n)) key + 1)
             channels.
Proof.
  assert (Hcount : forall ds' key, key ∈ channels ->
            total_received (appends ds' (new_window n)) key = Py.len ds').
  { intros ds' key Hk. unfold total_received, stored.
    rewrite stored_appends by done. simpl.
    unfold Py.len. by rewrite length_fmap. }
  split.
  - apply Forall_forall. intros key Hk. by apply Hcount.
  - intros d. apply Forall_forall. intros key Hk.
    change (update_data d (appends ds (new_window n)))
      with (appends [d] (appends ds (new_window n))).
    unfold appends at 1 2. rewrite <- foldl_app.
    fold (appends (ds ++ [d]) (new_window n)).
    rewrite !Hcount by done. rewrite len_app. reflexivity.
Qed.

(** C5: whatever the window holds and whatever its size, the [x] and [y]
    handed to [setData] for a channel have the same length, [x] goes up
    by one from each element to the next, and its last element is the
    number of samples the channel has received, less one. *)
Theorem plot_index_alignment
    (w : LiveGraphWindow) (key : string) (xs : list Z) (ys : list value) :
  plot_channel w key = Some (xs, ys) ->
  length xs = length ys
  /\ (forall i a b, xs !! i = Some a -> xs !! S i = Some b -> b = a + 1)
  /\ (forall a, last xs = Some a -> a = total_received w key - 1).
Proof.
  intros Hplot.
  destruct (data w !! key) as [l|] eqn:Hl.
  2: { unfold plot_channel in Hplot. by rewrite Hl in Hplot. }
  rewrite (plot_channel_eq _ _ l Hl) in Hplot.
  injection Hplot as <- <-.
  set (y := shown (window_size w) l).
  split; [|split].
  - rewrite length_seqZ. unfold Py.len. lia.
  - intros i a b Ha Hb.
    apply lookup_seqZ in Ha as [-> _]. apply lookup_seqZ in Hb as [-> _]. lia.
  - intros a Ha. rewrite last_lookup, length_seqZ in Ha.
    apply lookup_seqZ in Ha as [-> Hlt].
    unfold total_received, stored. rewrite Hl. simpl. lia.
Qed.

Lemma plot_index_alignment_witness :
  let w := appends [{["command"%string := VInt 1]};
                    {["command"%string := VInt 2]};
                    {["command"%string := VInt 3]}] (new_window 2) in
  plot_channel w "command" = Some ([1; 2], [VInt 2; VInt 3])
  /\ length [1; 2] = length [VInt 2; VInt 3]
  /\ (forall i a b, [1; 2] !! i = Some a -> [1; 2] !! S i = Some b -> b = a + 1)
  /\ (forall a, last [1; 2] = Some a -> a = total_received w "command" - 1).
Proof.
  assert (H : plot_channel
                (appends [{["command"%string := VInt 1]};
                          {["command"%string := VInt 2]};
                          {["command"%string := VInt 3]}] (new_window 2))
                "command" = Some ([1; 2], [VInt 2; VInt 3]))
    by (vm_compute; reflexivity).
  split; [exact H|].
  exact (plot_index_alignment _ _ _ _ H).
Defined.

(** C4: with a window of [n >= 1] points, after K calls of [update_data]
    on a fresh window the plot of a channel has exactly [min K n] points,
    and when [K >= n] its [y] is the last [n] values appended to the
    channel, in the order appended.  With [n = 2] and the values 1, 2, 3
    appended, [x = [1, 2]] and [y = [2, 3]]. *)
Theorem plot_shows_last_window
    (n : Z) (ds : list (gmap string value)) (key : string) :
  1 <= n ->
  key ∈ channels ->
  (exists xs ys,
      plot_channel (appends ds (new_window n)) key = Some (xs, ys)
      /\ Py.len xs = Z.min (Py.len ds) n
      /\ Py.len ys = Z.min (Py.len ds) n
      /\ (n <= Py.len ds ->
          ys = drop (Z.to_nat (Py.len ds - n)) (channel_value key <$> ds)))
  /\ plot_channel
       (appends [{["setpoint"%string := VFloat (Py.FDec false 1 0)]};
                 {["setpoint"%string := VFloat (Py.FDec false 2 0)]};
                 {["setpoint"%string := VFloat (Py.FDec false 3 0)]}]
                (new_window 2)) "setpoint"
     = Some ([1; 2],
             [VFloat (Py.FDec false 2 0); VFloat (Py.FDec false 3 0)]).
Proof.
  intros Hn Hk. split; [|by vm_compute].
  pose proof (stored_appends n ds key Hk) as Hl.
  eexists _, _. split.
  { rewrite (plot_channel_eq _ _ _ Hl). reflexivity. }
  rewrite appends_window_size. simpl.
  assert (Hlen : Py.len (channel_value key <$> ds) = Py.len ds).
  { unfold Py.len. by rewrite length_fmap. }
  rewrite <- Hlen. split; [|split].
  - unfold Py.len at 1. rewrite length_seqZ.
    pose proof (shown_len n (channel_value key <$> ds) Hn).
    unfold Py.len in *. lia.
  - by apply shown_len.
  - intros _. by apply shown_last.
Qed.

Lemma plot_shows_last_window_witness :
  1 <= 2
  /\ "command"%string ∈ channels
  /\ (exists xs ys,
      plot_channel (appends [∅; ∅; ∅] (new_window 2)) "command" = Some (xs, ys)
      /\ Py.len xs = Z.min (Py.len [∅; ∅; ∅ : gmap string value]) 2
      /\ Py.len ys = Z.min (Py.len [∅; ∅; ∅ : gmap string value]) 2
      /\ (2 <= Py.len [∅; ∅; ∅ : gmap string value] ->
          ys = drop (Z.to_nat (Py.len [∅; ∅; ∅ : gmap string value] - 2))
                    (channel_value "command" <$> [∅; ∅; ∅])))
  /\ plot_channel
       (appends [{["setpoint"%string := VFloat (Py.FDec false 1 0)]};
                 {["setpoint"%string := VFloat (Py.FDec false 2 0)]};
                 {["setpoint"%string := VFloat (Py.FDec false 3 0)]}]
                (new_window 2)) "setpoint"
     = Some ([1; 2],
             [VFloat (Py.FDec false 2 0); VFloat (Py.FDec false 3 0)]).
Proof.
  assert (H1 : 1 <= 2) by lia.
  assert (H2 : "command"%string ∈ channels) by (unfold channels; constructor).
  split; [exact H1|]. split; [exact H2|].
  exact (plot_shows_last_window 2 [∅; ∅; ∅] "command" H1 H2).
Defined.

(** C2, as the code has it: the list behind a channel is never trimmed.
    After K calls of [update_data] on a fresh window it holds all K values
    received, in arrival order, whatever the window size; the bound
    [min K n] holds for the slice that [update_plot] shows, which is the
    most recent end of that list. *)
Theorem backing_list_keeps_everything
    (n : Z) (ds : list (gmap string value)) (key : string) :
  1 <= n ->
  key ∈ channels ->
  stored (appends ds (new_window n)) key = channel_value key <$> ds
  /\ Py.len (stored (appends ds (new_window n)) key) = Py.len ds
  /\ Py.len (shown n (stored (appends ds (new_window n)) key))
     = Z.min (Py.len ds) n
  /\ shown n (stored (appends ds (new_window n)) key)
     = drop (Z.to_nat (Py.len ds - n)) (channel_value key <$> ds)
  /\ plot_channel (appends ds (new_window n)) key
     = Some (seqZ (Py.len ds - Z.min (Py.len ds) n) (Z.min (Py.len ds) n),
             shown n (stored (appends ds (new_window n)) key)).
Proof.
  intros Hn Hk.
  pose proof (stored_appends n ds key Hk) as Hl.
  assert (Hst : stored (appends ds (new_window n)) key
                = channel_value key <$> ds).
  { unfold stored. by rewrite Hl. }
  assert (Hlen : Py.len (channel_value key <$> ds) = Py.len ds).
  { unfold Py.len. by rewrite length_fmap. }
  rewrite Hst. split; [done|]. split; [done|].
  split; [by rewrite shown_len, Hlen|].
  split; [by rewrite shown_last, Hlen|].
  rewrite (plot_channel_eq _ _ _ Hl), appends_window_size. simpl.
  by rewrite shown_len, Hlen.
Qed.

Lemma backing_list_keeps_everything_witness :
  1 <= 2
  /\ "command"%string ∈ channels
  /\ stored (appends [∅; ∅; ∅] (new_window 2)) "command"
     = channel_value "command" <$> [∅; ∅; ∅]
  /\ Py.len (stored (appends [∅; ∅; ∅] (new_window 2)) "command")
     = Py.len [∅; ∅; ∅ : gmap string value].
Proof.
  assert (H1 : 1 <= 2) by lia.
  assert (H2 : "command"%string ∈ channels) by (unfold channels; constructor).
  split; [exact H1|]. split; [exact H2|].
  pose proof (backing_list_keeps_everything 2 [∅; ∅; ∅] "command" H1 H2)
    as (Ha & Hb & _).
  exact (conj Ha Hb).
Defined.

(** C2, as stated, fails: after 101 calls of [update_data] on the window
    made by [__init__] (window size 100), the list of a channel holds 101
    values, one more than [min 101 100]. *)
Lemma backing_list_exceeds_window :
  window_size (appends (replicate 101 ∅) init) = 100
  /\ total_received (appends (replicate 101 ∅) init) "command" = 101
  /\ Py.len (stored (appends (replicate 101 ∅) init) "command") = 101
  /\ Z.min (total_received (appends (replicate 101 ∅) init) "command")
           (window_size (appends (replicate 101 ∅) init)) = 100.
Proof. vm_compute. repeat split. Qed.

(** * The claims about the worker *)

Section worker_facts.
Implicit Types (data : bytes) (s p : text) (a : app).

Lemma float_inr p x : Py.float_of p = Some x -> float p = inr (VFloat x).
Proof. unfold float. by intros ->. Qed.

Lemma float_inl p : Py.float_of p = None -> float p = inl (ValueError p).
Proof. unfold float. by intros ->. Qed.

(** The message handler on a payload that decodes to four fields. *)
Lemma handle_four_fields data s p0 p1 p2 p3 :
  Py.decode data = Some s ->
  Py.split 0x2C (Py.strip s) = [p0; p1; p2; p3] ->
  handle_xbee_message data
  = match sensor_data_of p0 p1 p2 p3 with
    | inr sensor_data => Emit sensor_data
    | inl e => ErrorProcessing e
    end.
Proof. intros Hd Hs. unfold handle_xbee_message. by rewrite Hd, Hs. Qed.

(** The message handler on a payload with another number of fields. *)
Lemma handle_other_count data s :
  Py.decode data = Some s ->
  length (Py.split 0x2C (Py.strip s)) <> 4%nat ->
  handle_xbee_message data = UnexpectedFormat (Py.strip s).
Proof.
  intros Hd Hn. unfold handle_xbee_message. rewrite Hd.
  destruct (Py.split _ _) as [|p0 [|p1 [|p2 [|p3 [|p4 ps]]]]];
    simpl in *; done.
Qed.

Lemma run_cons data (frames : list bytes) a :
  run (data :: frames) a = run frames (on_message a data).
Proof. reflexivity. Qed.

(** A run, told by what each frame emits and prints. *)
Lemma run_eq (frames : list bytes) a :
  run frames a
  = {| window := appends (omap emission frames) (window a);
       emitted := emitted a ++ omap emission frames;
       printed := printed a ++ omap diagnosis frames |}.
Proof.
  revert a. induction frames as [|f frames IH]; intros a.
  - simpl. rewrite !app_nil_r. by destruct a.
  - rewrite run_cons, IH. simpl.
    unfold on_message, emission, diagnosis.
    destruct (handle_xbee_message f); simpl;
      by rewrite <- ?app_assoc.
Qed.

(** Every frame is either emitted or diagnosed. *)
Lemma emission_or_diagnosis (frames : list bytes) :
  (length (omap emission frames) + length (omap diagnosis frames))%nat
  = length frames.
Proof.
  induction frames as [|f frames IH]; [done|].
  assert (Hf : (exists d, emission f = Some d /\ diagnosis f = None)
               \/ (exists e, emission f = None /\ diagnosis f = Some e)).
  { unfold emission, diagnosis.
    destruct (handle_xbee_message f); eauto. }
  change (f :: frames) with ([f] ++ frames).
  rewrite !omap_app, !length_app. simpl.
  destruct Hf as [(d & -> & ->) | (e & -> & ->)]; simpl; lia.
Qed.

Lemma omap_emission_skip (before after : list bytes) data :
  emission data = None ->
  omap emission (before ++ data :: after)
  = omap emission (before ++ after).
Proof.
  intros Hn. rewrite !omap_app. simpl. by rewrite Hn.
Qed.

End worker_facts.

(** C1: when the payload decodes and splits on [','] into four fields
    that [float] accepts, the dictionary emitted has the first field
    under ["setpoint"], the second under ["command"], the third under
    ["measurement1"] and the fourth under ["measurement2"], and no other
    key, although ["command"] is converted and inserted first. *)
Theorem decode_positional_mapping
    (data : bytes) (s p0 p1 p2 p3 : text) (x0 x1 x2 x3 : Py.double) :
  Py.decode data = Some s ->
  Py.split 0x2C (Py.strip s) = [p0; p1; p2; p3] ->
  Py.float_of p0 = Some x0 ->
  Py.float_of p1 = Some x1 ->
  Py.float_of p2 = Some x2 ->
  Py.float_of p3 = Some x3 ->
  exists sensor_data,
    handle_xbee_message data = Emit sensor_data
    /\ sensor_data !! "setpoint"%string = Some (VFloat x0)
    /\ sensor_data !! "command"%string = Some (VFloat x1)
    /\ sensor_data !! "measurement1"%string = Some (VFloat x2)
    /\ sensor_data !! "measurement2"%string = Some (VFloat x3)
    /\ dom sensor_data = list_to_set channels.
Proof.
  intros Hd Hs H0 H1 H2 H3.
  rewrite (handle_four_fields _ _ _ _ _ _ Hd Hs).
  unfold sensor_data_of.
  rewrite (float_inr _ _ H0), (float_inr _ _ H1),
    (float_inr _ _ H2), (float_inr _ _ H3). simpl.
  eexists. split; [reflexivity|].
  repeat split; by simplify_map_eq.
Qed.

Lemma decode_positional_mapping_witness :
  Py.decode (frame "1.5,-2,3e2,.25") = Some (Py.text_of "1.5,-2,3e2,.25")
  /\ exists sensor_data,
    handle_xbee_message (frame "1.5,-2,3e2,.25") = Emit sensor_data
    /\ sensor_data !! "setpoint"%string = Some (VFloat (Py.FDec false 15 (-1)))
    /\ sensor_data !! "command"%string = Some (VFloat (Py.FDec true 2 0))
    /\ sensor_data !! "measurement1"%string = Some (VFloat (Py.FDec false 3 2))
    /\ sensor_data !! "measurement2"%string
       = Some (VFloat (Py.FDec false 25 (-2)))
    /\ dom sensor_data = list_to_set channels.
Proof.
  split; [by vm_compute|].
  apply (decode_positional_mapping (frame "1.5,-2,3e2,.25")
           (Py.text_of "1.5,-2,3e2,.25")
           (Py.text_of "1.5") (Py.text_of "-2")
           (Py.text_of "3e2") (Py.text_of ".25"));
    vm_compute; reflexivity.
Defined.

(** C8: the handler prints "Unexpected message format" and returns,
    emitting nothing, exactly when the payload decodes and the stripped
    text does not split on [','] into four fields; the text printed is
    then the stripped text.  ["1,2,3"] and ["1,2,3,4,5"] are such
    payloads. *)
Theorem unexpected_format_iff_not_four_fields (data : bytes) :
  ((exists data_str, handle_xbee_message data = UnexpectedFormat data_str)
   <-> exists s, Py.decode data = Some s
                 /\ length (Py.split 0x2C (Py.strip s)) <> 4%nat)
  /\ (forall s, Py.decode data = Some s ->
        length (Py.split 0x2C (Py.strip s)) <> 4%nat ->
        handle_xbee_message data = UnexpectedFormat (Py.strip s))
  /\ handle_xbee_message (frame "1,2,3") = UnexpectedFormat (Py.text_of "1,2,3")
  /\ handle_xbee_message (frame "1,2,3,4,5")
     = UnexpectedFormat (Py.text_of "1,2,3,4,5").
Proof.
  split; [|split; [apply handle_other_count|by vm_compute]].
  split.
  - intros [data_str Hh].
    destruct (Py.decode data) as [s|] eqn:Hd.
    2: { unfold handle_xbee_message in Hh. by rewrite Hd in Hh. }
    exists s. split; [done|]. intros Hlen.
    destruct (Py.split 0x2C (Py.strip s))
      as [|p0 [|p1 [|p2 [|p3 [|p4 ps]]]]] eqn:Hs; try done.
    rewrite (handle_four_fields _ _ _ _ _ _ Hd Hs) in Hh.
    by destruct (sensor_data_of p0 p1 p2 p3).
  - intros (s & Hd & Hlen). exists (Py.strip s).
    by apply handle_other_count.
Qed.

(** Membership in a list written out. *)
Ltac in_list := rewrite !elem_of_cons; tauto.

(** C3, as the code has it: when the payload has four fields and [float]
    raises [ValueError] on one of them, the handler prints the error and
    emits nothing; ["1,2,x,4"] is such a payload.  A field that spells
    NaN or Infinity is one [float] accepts, so such a frame is emitted. *)
Theorem unconvertible_field_is_dropped
    (data : bytes) (s p0 p1 p2 p3 : text) :
  Py.decode data = Some s ->
  Py.split 0x2C (Py.strip s) = [p0; p1; p2; p3] ->
  (exists p, p ∈ [p0; p1; p2; p3] /\ Py.float_of p = None) ->
  (exists p, p ∈ [p0; p1; p2; p3] /\ Py.float_of p = None
             /\ handle_xbee_message data = ErrorProcessing (ValueError p))
  /\ handle_xbee_message (frame "1,2,x,4")
     = ErrorProcessing (ValueError (Py.text_of "x"))
  /\ Py.float_of (Py.text_of "NaN") = Some (Py.FNan false)
  /\ Py.float_of (Py.text_of "Infinity") = Some (Py.FInf false)
  /\ Py.float_of (Py.text_of "-inf") = Some (Py.FInf true)
  /\ exists sensor_data,
       handle_xbee_message (frame "NaN,Infinity,3,4") = Emit sensor_data
       /\ sensor_data !! "setpoint"%string = Some (VFloat (Py.FNan false))
       /\ sensor_data !! "command"%string = Some (VFloat (Py.FInf false)).
Proof.
  intros Hd Hs (p & Hp & Hnone).
  split.
  2: { repeat split; try by vm_compute.
       eexists. split; [by vm_compute|]. split; by vm_compute. }
  rewrite (handle_four_fields _ _ _ _ _ _ Hd Hs).
  unfold sensor_data_of.
  destruct (Py.float_of p1) as [x1|] eqn:H1.
  2: { exists p1. rewrite (float_inl _ H1). split; [in_list|done]. }
  rewrite (float_inr _ _ H1). simpl.
  destruct (Py.float_of p0) as [x0|] eqn:H0.
  2: { exists p0. rewrite (float_inl _ H0). split; [in_list|done]. }
  rewrite (float_inr _ _ H0). simpl.
  destruct (Py.float_of p2) as [x2|] eqn:H2.
  2: { exists p2. rewrite (float_inl _ H2). split; [in_list|done]. }
  rewrite (float_inr _ _ H2). simpl.
  destruct (Py.float_of p3) as [x3|] eqn:H3.
  2: { exists p3. rewrite (float_inl _ H3). split; [in_list|done]. }
  exfalso.
  rewrite !elem_of_cons, elem_of_nil in Hp.
  destruct Hp as [-> | [-> | [-> | [-> | []]]]]; congruence.
Qed.

Lemma unconvertible_field_is_dropped_witness :
  Py.decode (frame "1,2,x,4") = Some (Py.text_of "1,2,x,4")
  /\ Py.float_of (Py.text_of "x") = None
  /\ exists p,
       p ∈ [Py.text_of "1"; Py.text_of "2"; Py.text_of "x"; Py.text_of "4"]
       /\ Py.float_of p = None
       /\ handle_xbee_message (frame "1,2,x,4")
          = ErrorProcessing (ValueError p).
Proof.
  assert (Hd : Py.decode (frame "1,2,x,4") = Some (Py.text_of "1,2,x,4"))
    by (vm_compute; reflexivity).
  assert (Hx : Py.float_of (Py.text_of "x") = None)
    by (vm_compute; reflexivity).
  split; [exact Hd|]. split; [exact Hx|].
  refine (proj1 (unconvertible_field_is_dropped (frame "1,2,x,4")
                   (Py.text_of "1,2,x,4")
                   (Py.text_of "1") (Py.text_of "2")
                   (Py.text_of "x") (Py.text_of "4") Hd _ _)).
  - vm_compute. reflexivity.
  - exists (Py.text_of "x"). split; [|exact Hx].
    do 2 apply list_elem_of_further. apply list_elem_of_here.
Defined.

(** C3, as stated, fails: a frame whose fields spell NaN and Infinity is
    not rejected; it is emitted, with values that are not finite. *)
Lemma nan_and_infinity_are_accepted :
  exists sensor_data,
    handle_xbee_message (frame "NaN,Infinity,3,4") = Emit sensor_data
    /\ sensor_data !! "setpoint"%string = Some (VFloat (Py.FNan false))
    /\ sensor_data !! "command"%string = Some (VFloat (Py.FInf false))
    /\ Py.isfinite (Py.FNan false) = false
    /\ Py.isfinite (Py.FInf false) = false.
Proof.
  eexists. split; [by vm_compute|]. repeat split; by vm_compute.
Qed.

(** C7: on the frames ["1,2,3,4"], ["bad"], ["5,6,7,8"] the worker emits
    twice and prints one diagnostic, for ["bad"]; the window then holds
    the two records in arrival order in each channel.  In general every
    frame is either emitted or diagnosed, the window holds the emitted
    dictionaries in order, and a frame that is not emitted leaves the
    window and the emissions as they would be without it. *)
Theorem malformed_frame_does_not_stop_ingestion :
  (let a := run (frame <$> ["1,2,3,4"; "bad"; "5,6,7,8"]%string) (start init) in
   length (emitted a) = 2%nat
   /\ length (printed a) = 1%nat
   /\ printed a = [PrintUnexpected (Py.text_of "bad")]
   /\ emitted a
      = [<["measurement2"%string := VFloat (Py.FDec false 4 0)]>
          (<["measurement1"%string := VFloat (Py.FDec false 3 0)]>
            (<["setpoint"%string := VFloat (Py.FDec false 1 0)]>
              (<["command"%string := VFloat (Py.FDec false 2 0)]> ∅)));
         <["measurement2"%string := VFloat (Py.FDec false 8 0)]>
          (<["measurement1"%string := VFloat (Py.FDec false 7 0)]>
            (<["setpoint"%string := VFloat (Py.FDec false 5 0)]>
              (<["command"%string := VFloat (Py.FDec false 6 0)]> ∅)))]
   /\ stored (window a) "setpoint"
      = [VFloat (Py.FDec false 1 0); VFloat (Py.FDec false 5 0)]
   /\ stored (window a) "command"
      = [VFloat (Py.FDec false 2 0); VFloat (Py.FDec false 6 0)]
   /\ stored (window a) "measurement1"
      = [VFloat (Py.FDec false 3 0); VFloat (Py.FDec false 7 0)]
   /\ stored (window a) "measurement2"
      = [VFloat (Py.FDec false 4 0); VFloat (Py.FDec false 8 0)])
  /\ (forall (frames : list bytes) (w : LiveGraphWindow),
        window (run frames (start w))
        = appends (emitted (run frames (start w))) w
        /\ (length (emitted (run frames (start w)))
            + length (printed (run frames (start w))))%nat
           = length frames)
  /\ (forall (before after : list bytes) (bad : bytes) (a : app),
        (forall sensor_data, handle_xbee_message bad <> Emit sensor_data) ->
        window (run (before ++ bad :: after) a)
        = window (run (before ++ after) a)
        /\ emitted (run (before ++ bad :: after) a)
           = emitted (run (before ++ after) a)
        /\ length (printed (run (before ++ bad :: after) a))
           = S (length (printed (run (before ++ after) a)))).
Proof.
  split; [|split].
  - vm_compute. repeat split.
  - intros frames w. rewrite run_eq. simpl. split; [done|].
    apply emission_or_diagnosis.
  - intros before after bad a Hbad.
    assert (He : emission bad = None).
    { unfold emission. destruct (handle_xbee_message bad) eqn:Hh; try done.
      by destruct (Hbad sensor_data). }
    assert (Hd : exists e, diagnosis bad = Some e).
    { unfold diagnosis. destruct (handle_xbee_message bad) eqn:Hh; eauto.
      by destruct (Hbad sensor_data). }
    destruct Hd as [e Hd].
    rewrite !run_eq. simpl. rewrite (omap_emission_skip _ _ _ He).
    split; [done|]. split; [done|].
    rewrite !omap_app. simpl. rewrite Hd.
    rewrite !length_app. simpl.
    change (list_omap _ _ diagnosis after) with (omap diagnosis after). lia.
Qed.

(** * Further properties of the message handler *)

Section split_facts.
Implicit Types (sep c : Z) (s p : text).

Lemma split_cons sep c s :
  Py.split sep (c :: s)
  = if c =? sep then [] :: Py.split sep s
    else match Py.split sep s with
         | p :: ps => (c :: p) :: ps
         | [] => [[c]]
         end.
Proof. reflexivity. Qed.

Lemma split_not_nil sep s : exists p ps, Py.split sep s = p :: ps.
Proof.
  induction s as [|c s (p & ps & IH)]; [by eexists _, _|].
  rewrite split_cons, IH. destruct (c =? sep); by eexists _, _.
Qed.

Lemma split_length sep s : length (Py.split sep s) = S (count sep s).
Proof.
  induction s as [|c s IH]; [done|].
  rewrite split_cons. unfold count in *. cbn [count_occ].
  destruct (split_not_nil sep s) as (p & ps & Hs). rewrite Hs in *.
  destruct (Z.eqb_spec c sep) as [->|Hne], (Z.eq_dec _ _);
    cbn [length] in *; congruence.
Qed.

Lemma join_cons sep p q (ps : list text) :
  join sep (p :: q :: ps) = p ++ sep :: join sep (q :: ps).
Proof. reflexivity. Qed.

Lemma join_split sep s : join sep (Py.split sep s) = s.
Proof.
  induction s as [|c s IH]; [done|].
  rewrite split_cons.
  destruct (split_not_nil sep s) as (p & ps & Hs). rewrite Hs in *.
  destruct (Z.eqb_spec c sep) as [->|Hne].
  - by rewrite join_cons, IH.
  - destruct ps as [|q ps]; [by simplify_eq/=|].
    rewrite join_cons in IH. rewrite join_cons. by rewrite <- IH.
Qed.

Lemma split_no_sep sep s : Forall (fun p => sep ∉ p) (Py.split sep s).
Proof.
  induction s as [|c s IH].
  - repeat constructor. apply not_elem_of_nil.
  - rewrite split_cons.
    destruct (split_not_nil sep s) as (p & ps & Hs). rewrite Hs in *.
    apply Forall_cons in IH as [Hp Hps].
    destruct (Z.eqb_spec c sep) as [->|Hne].
    + repeat constructor; [apply not_elem_of_nil|done..].
    + constructor; [|done]. rewrite elem_of_cons.
      intros [Heq|Hin]; [by apply Hne|by apply Hp].
Qed.

End split_facts.

(** X1: the fields the handler works on are the stripped text cut at its
    commas: joined with commas they give the text back, none of them
    holds a comma, and there is one more of them than there are commas. *)
Theorem split_fields_round_trip (sep : Z) (s : text) :
  join sep (Py.split sep s) = s
  /\ Forall (fun p => sep ∉ p) (Py.split sep s)
  /\ length (Py.split sep s) = S (count sep s).
Proof.
  split; [apply join_split|].
  split; [apply split_no_sep|apply split_length].
Qed.

(** X2: the handler takes the "Unexpected message format" branch exactly
    when the payload decodes and the stripped text does not hold three
    commas. *)
Theorem unexpected_format_iff_not_three_commas (data : bytes) :
  (exists data_str, handle_xbee_message data = UnexpectedFormat data_str)
  <-> exists s, Py.decode data = Some s /\ count 0x2C (Py.strip s) <> 3%nat.
Proof.
  split.
  - intros [data_str Hh].
    destruct (Py.decode data) as [s|] eqn:Hd.
    2: { unfold handle_xbee_message in Hh. by rewrite Hd in Hh. }
    exists s. split; [done|]. intros Hcount.
    pose proof (split_length 0x2C (Py.strip s)) as Hlen.
    rewrite Hcount in Hlen.
    destruct (Py.split 0x2C (Py.strip s))
      as [|p0 [|p1 [|p2 [|p3 [|p4 ps]]]]] eqn:Hs; try done.
    rewrite (handle_four_fields _ _ _ _ _ _ Hd Hs) in Hh.
    by destruct (sensor_data_of p0 p1 p2 p3).
  - intros (s & Hd & Hcount). exists (Py.strip s).
    apply handle_other_count; [done|].
    rewrite split_length. lia.
Qed.

Section emission_facts.
Implicit Types (data : bytes) (s p : text) (d : gmap string value).

(** Whatever is emitted was made from four accepted fields. *)
Lemma emit_inv data d :
  handle_xbee_message data = Emit d ->
  exists s p0 p1 p2 p3 x0 x1 x2 x3,
    Py.decode data = Some s
    /\ Py.split 0x2C (Py.strip s) = [p0; p1; p2; p3]
    /\ Py.float_of p0 = Some x0 /\ Py.float_of p1 = Some x1
    /\ Py.float_of p2 = Some x2 /\ Py.float_of p3 = Some x3
    /\ d = <["measurement2"%string := VFloat x3]>
           (<["measurement1"%string := VFloat x2]>
            (<["setpoint"%string := VFloat x0]>
             (<["command"%string := VFloat x1]> ∅))).
Proof.
  intros Hh.
  destruct (Py.decode data) as [s|] eqn:Hd.
  2: { unfold handle_xbee_message in Hh. by rewrite Hd in Hh. }
  destruct (Py.split 0x2C (Py.strip s))
    as [|p0 [|p1 [|p2 [|p3 [|p4 ps]]]]] eqn:Hs.
  1-4, 6: unfold handle_xbee_message in Hh; by rewrite Hd, Hs in Hh.
  rewrite (handle_four_fields _ _ _ _ _ _ Hd Hs) in Hh.
  unfold sensor_data_of, float in Hh.
  destruct (Py.float_of p1) as [x1|] eqn:H1; [|done].
  destruct (Py.float_of p0) as [x0|] eqn:H0; [|done].
  destruct (Py.float_of p2) as [x2|] eqn:H2; [|done].
  destruct (Py.float_of p3) as [x3|] eqn:H3; [|done].
  simpl in Hh. injection Hh as <-.
  by exists s, p0, p1, p2, p3, x0, x1, x2, x3.
Qed.

Lemma emit_lookup data d key :
  handle_xbee_message data = Emit d ->
  key ∈ channels ->
  exists x, d !! key = Some (VFloat x).
Proof.
  intros Hh Hk.
  destruct (emit_inv _ _ Hh)
    as (s & p0 & p1 & p2 & p3 & x0 & x1 & x2 & x3 & _ & _ & _ & _ & _ & _ & ->).
  destruct (channels_cases key Hk) as [-> | [-> | [-> | ->]]];
    eexists; by simplify_map_eq.
Qed.

End emission_facts.

(** X3: a dictionary is emitted only for a payload that decodes and whose
    stripped text splits into four fields that [float] accepts; it then
    has the four channel keys and no other, and every value in it is a
    float. *)
Theorem emitted_only_from_four_accepted_fields
    (data : bytes) (d : gmap string value) :
  handle_xbee_message data = Emit d ->
  (exists s p0 p1 p2 p3 x0 x1 x2 x3,
      Py.decode data = Some s
      /\ Py.split 0x2C (Py.strip s) = [p0; p1; p2; p3]
      /\ Py.float_of p0 = Some x0 /\ Py.float_of p1 = Some x1
      /\ Py.float_of p2 = Some x2 /\ Py.float_of p3 = Some x3
      /\ d !! "setpoint"%string = Some (VFloat x0)
      /\ d !! "command"%string = Some (VFloat x1)
      /\ d !! "measurement1"%string = Some (VFloat x2)
      /\ d !! "measurement2"%string = Some (VFloat x3))
  /\ dom d = list_to_set channels
  /\ (forall key v, d !! key = Some v -> is_float v = true).
Proof.
  intros Hh.
  destruct (emit_inv _ _ Hh)
    as (s & p0 & p1 & p2 & p3 & x0 & x1 & x2 & x3
        & Hd & Hs & H0 & H1 & H2 & H3 & ->).
  split; [|split].
  - exists s, p0, p1, p2, p3, x0, x1, x2, x3.
    repeat split; try done; by simplify_map_eq.
  - reflexivity.
  - intros key v Hv.
    repeat (apply lookup_insert_Some in Hv as [[_ <-]|[_ Hv]]; [done|]).
    by rewrite lookup_empty in Hv.
Qed.

Lemma emitted_only_from_four_accepted_fields_witness :
  let d : gmap string value :=
    <["measurement2"%string := VFloat (Py.FDec false 4 0)]>
      (<["measurement1"%string := VFloat (Py.FDec false 3 0)]>
        (<["setpoint"%string := VFloat (Py.FDec false 1 0)]>
          (<["command"%string := VFloat (Py.FDec false 2 0)]> ∅))) in
  handle_xbee_message (frame "1,2,3,4") = Emit d
  /\ dom d = list_to_set channels
  /\ (forall key v, d !! key = Some v -> is_float v = true).
Proof.
  intros d.
  assert (H : handle_xbee_message (frame "1,2,3,4") = Emit d)
    by (vm_compute; reflexivity).
  split; [exact H|].
  exact (proj2 (emitted_only_from_four_accepted_fields _ _ H)).
Defined.

(** X4: for a payload of four fields, the field named in the error is the
    first one [float] refuses in the order the code converts them:
    [parts[1]] (command), [parts[0]] (setpoint), [parts[2]], [parts[3]];
    when none is refused a dictionary is emitted. *)
Theorem error_names_first_refused_field
    (data : bytes) (s p0 p1 p2 p3 : text) :
  Py.decode data = Some s ->
  Py.split 0x2C (Py.strip s) = [p0; p1; p2; p3] ->
  match List.find rejected [p1; p0; p2; p3] with
  | Some q => handle_xbee_message data = ErrorProcessing (ValueError q)
  | None => exists d, handle_xbee_message data = Emit d
  end.
Proof.
  intros Hd Hs. rewrite (handle_four_fields _ _ _ _ _ _ Hd Hs).
  unfold sensor_data_of, float, rejected. simpl.
  destruct (Py.float_of p1); [|done]. simpl.
  destruct (Py.float_of p0); [|done]. simpl.
  destruct (Py.float_of p2); [|done]. simpl.
  destruct (Py.float_of p3); [|done]. simpl.
  by eexists.
Qed.

Lemma error_names_first_refused_field_witness :
  Py.decode (frame "x,y,3,4") = Some (Py.text_of "x,y,3,4")
  /\ handle_xbee_message (frame "x,y,3,4")
     = ErrorProcessing (ValueError (Py.text_of "y")).
Proof.
  assert (Hd : Py.decode (frame "x,y,3,4") = Some (Py.text_of "x,y,3,4"))
    by (vm_compute; reflexivity).
  assert (Hs : Py.split 0x2C (Py.strip (Py.text_of "x,y,3,4"))
               = [Py.text_of "x"; Py.text_of "y"; Py.text_of "3";
                  Py.text_of "4"]) by (vm_compute; reflexivity).
  split; [exact Hd|].
  exact (error_names_first_refused_field _ _ _ _ _ _ Hd Hs).
Defined.

Section utf8_facts.
Implicit Types (b : Z) (bs : list Z).

(** Comparisons of integers decided case by case. *)
Ltac zcases :=
  repeat match goal with
         | |- context [?a <=? ?b] => destruct (Z.leb_spec a b)
         | |- context [?a <? ?b] => destruct (Z.ltb_spec a b)
         | |- context [?a =? ?b] => destruct (Z.eqb_spec a b)
         | H : context [?a <=? ?b] |- _ => destruct (Z.leb_spec a b)
         | H : context [?a <? ?b] |- _ => destruct (Z.ltb_spec a b)
         | H : context [?a =? ?b] |- _ => destruct (Z.eqb_spec a b)
         end;
  simpl in *; try done; try lia.

Lemma utf8_decode_cons b0 r0 :
  Py.utf8_decode (b0 :: r0)
  = if b0 <? 0x80 then cons b0 <$> Py.utf8_decode r0
    else if Py.in_range 0xC2 0xDF b0 then
      match r0 with
      | b1 :: r1 =>
        if Py.is_cont b1
        then cons ((b0 - 0xC0) * 64 + (b1 - 0x80)) <$> Py.utf8_decode r1
        else None
      | _ => None
      end
    else if Py.in_range 0xE0 0xEF b0 then
      match r0 with
      | b1 :: b2 :: r2 =>
        if Py.in_range (if b0 =? 0xE0 then 0xA0 else 0x80)
                       (if b0 =? 0xED then 0x9F else 0xBF) b1
           && Py.is_cont b2
        then cons ((b0 - 0xE0) * 4096 + (b1 - 0x80) * 64 + (b2 - 0x80))
               <$> Py.utf8_decode r2
        else None
      | _ => None
      end
    else if Py.in_range 0xF0 0xF4 b0 then
      match r0 with
      | b1 :: b2 :: b3 :: r3 =>
        if Py.in_range (if b0 =? 0xF0 then 0x90 else 0x80)
                       (if b0 =? 0xF4 then 0x8F else 0xBF) b1
           && Py.is_cont b2 && Py.is_cont b3
        then cons ((b0 - 0xF0) * 262144 + (b1 - 0x80) * 4096
                   + (b2 - 0x80) * 64 + (b3 - 0x80))
               <$> Py.utf8_decode r3
        else None
      | _ => None
      end
    else None.
Proof. reflexivity. Qed.

Lemma utf8_decode_ascii bs :
  Forall (fun b => b < 0x80) bs -> Py.utf8_decode bs = Some bs.
Proof.
  induction 1 as [|b bs Hb _ IH]; [done|].
  rewrite utf8_decode_cons, IH.
  destruct (Z.ltb_spec b 0x80); [done|lia].
Qed.

Lemma utf8_decode_ascii_app ws bs :
  Forall (fun b => b < 0x80) ws ->
  Py.utf8_decode (ws ++ bs) = (ws ++.) <$> Py.utf8_decode bs.
Proof.
  induction 1 as [|b ws Hb _ IH].
  - simpl. by destruct (Py.utf8_decode bs).
  - change ((b :: ws) ++ bs) with (b :: (ws ++ bs)).
    rewrite utf8_decode_cons, IH.
    destruct (Z.ltb_spec b 0x80); [|lia].
    by destruct (Py.utf8_decode bs).
Qed.

Lemma never_lead b :
  never_in_utf8 b = true ->
  (b <? 0x80) = false /\ Py.in_range 0xC2 0xDF b = false
  /\ Py.in_range 0xE0 0xEF b = false /\ Py.in_range 0xF0 0xF4 b = false.
Proof. unfold never_in_utf8, Py.in_range. intros H. repeat split; zcases. Qed.

Lemma never_second b lo hi :
  never_in_utf8 b = true -> hi <= 0xBF -> Py.in_range lo hi b = false.
Proof. unfold never_in_utf8, Py.in_range. intros H Hhi. zcases. Qed.

Lemma utf8_decode_never_aux (n : nat) :
  forall bs b, (length bs <= n)%nat -> b ∈ bs -> never_in_utf8 b = true ->
               Py.utf8_decode bs = None.
Proof.
  induction n as [|n IH]; intros bs b Hlen Hin Hbad.
  { destruct bs; [by apply elem_of_nil in Hin|simpl in Hlen; lia]. }
  destruct bs as [|b0 r0]; [by apply elem_of_nil in Hin|].
  simpl in Hlen. rewrite utf8_decode_cons.
  apply elem_of_cons in Hin as [<-|Hin].
  { destruct (never_lead b Hbad) as (-> & -> & -> & ->). done. }
  destruct (b0 <? 0x80).
  { rewrite (IH r0 b); [done|lia|done..]. }
  destruct (Py.in_range 0xC2 0xDF b0).
  { destruct r0 as [|b1 r1]; [done|]. simpl in Hlen.
    apply elem_of_cons in Hin as [<-|Hin].
    - unfold Py.is_cont. by rewrite never_second.
    - rewrite (IH r1 b); [by destruct (Py.is_cont b1)|lia|done..]. }
  destruct (Py.in_range 0xE0 0xEF b0).
  { destruct r0 as [|b1 [|b2 r2]]; [done..|]. simpl in Hlen.
    apply elem_of_cons in Hin as [<-|Hin].
    { rewrite never_second; [done..|]. by destruct (b0 =? 0xED). }
    apply elem_of_cons in Hin as [<-|Hin].
    { unfold Py.is_cont. rewrite (never_second b) by done.
      by rewrite andb_false_r. }
    rewrite (IH r2 b); [|lia|done..].
    by destruct (_ && _). }
  destruct (Py.in_range 0xF0 0xF4 b0); [|done].
  destruct r0 as [|b1 [|b2 [|b3 r3]]]; [done..|]. simpl in Hlen.
  apply elem_of_cons in Hin as [<-|Hin].
  { rewrite never_second; [done..|]. by destruct (b0 =? 0xF4). }
  apply elem_of_cons in Hin as [<-|Hin].
  { unfold Py.is_cont. rewrite (never_second b) by done.
    by rewrite andb_false_r. }
  apply elem_of_cons in Hin as [<-|Hin].
  { unfold Py.is_cont. rewrite (never_second b) by done.
    by rewrite andb_false_r. }
  rewrite (IH r3 b); [|lia|done..].
  by destruct (_ && _).
Qed.

End utf8_facts.

(** X5: a payload of ASCII bytes always decodes, to the text with the
    same character codes, so the only error it can end in is the
    [ValueError] of [float]. *)
Theorem ascii_payload_always_decodes (data : bytes) :
  Forall (fun b => Py.byte_val b < 0x80) data ->
  Py.decode data = Some (Py.byte_val <$> data)
  /\ forall e, handle_xbee_message data = ErrorProcessing e ->
               exists q, e = ValueError q.
Proof.
  intros Hascii.
  assert (Hd : Py.decode data = Some (Py.byte_val <$> data)).
  { unfold Py.decode. apply utf8_decode_ascii. by apply Forall_fmap. }
  split; [done|]. intros e He.
  unfold handle_xbee_message in He. rewrite Hd in He. simpl in He.
  destruct (Py.split _ _) as [|p0 [|p1 [|p2 [|p3 [|p4 ps]]]]]; try done.
  unfold sensor_data_of, float in He.
  destruct (Py.float_of p1); [|injection He as <-; by eexists].
  destruct (Py.float_of p0); [|injection He as <-; by eexists].
  destruct (Py.float_of p2); [|injection He as <-; by eexists].
  destruct (Py.float_of p3); [|injection He as <-; by eexists].
  done.
Qed.

Lemma ascii_payload_always_decodes_witness :
  Forall (fun b => Py.byte_val b < 0x80) (frame "1,2,x,4")
  /\ Py.decode (frame "1,2,x,4") = Some (Py.byte_val <$> frame "1,2,x,4").
Proof.
  assert (H : Forall (fun b => Py.byte_val b < 0x80) (frame "1,2,x,4")).
  { repeat constructor. }
  split; [exact H|].
  exact (proj1 (ascii_payload_always_decodes _ H)).
Defined.

(** X6: a payload that holds one of the bytes C0, C1 or F5 to FF, which
    occur in no UTF-8 text, is never emitted and never reported as a
    format problem, wherever the byte stands: the handler prints the
    decoding error. *)
Theorem stray_byte_is_a_decode_error (data : bytes) (b : byte) :
  b ∈ data ->
  never_in_utf8 (Py.byte_val b) = true ->
  Py.decode data = None
  /\ handle_xbee_message data = ErrorProcessing UnicodeDecodeError.
Proof.
  intros Hin Hbad.
  assert (Hd : Py.decode data = None).
  { unfold Py.decode.
    apply (utf8_decode_never_aux (length (Py.byte_val <$> data)) _
             (Py.byte_val b)); [done| |done].
    by apply list_elem_of_fmap_2. }
  split; [done|]. unfold handle_xbee_message. by rewrite Hd.
Qed.

Lemma stray_byte_is_a_decode_error_witness :
  xff ∈ frame "1,2" ++ [xff] ++ frame ",3,4"
  /\ handle_xbee_message (frame "1,2" ++ [xff] ++ frame ",3,4")
     = ErrorProcessing UnicodeDecodeError.
Proof.
  assert (H : xff ∈ frame "1,2" ++ [xff] ++ frame ",3,4").
  { do 3 apply list_elem_of_further. apply list_elem_of_here. }
  split; [exact H|].
  exact (proj2 (stray_byte_is_a_decode_error _ xff H eq_refl)).
Defined.

Section strip_facts.
Context (sp : Z -> bool).
Implicit Types (s ws : text).

Lemma lstrip_spaces_app ws s :
  Forall (fun c => sp c = true) ws ->
  Py.lstrip_with sp (ws ++ s) = Py.lstrip_with sp s.
Proof. induction 1 as [|c ws Hc _ IH]; [done|]. simpl. by rewrite Hc. Qed.

Lemma lstrip_spaces ws :
  Forall (fun c => sp c = true) ws -> Py.lstrip_with sp ws = [].
Proof.
  intros H. rewrite <- (app_nil_r ws). by rewrite lstrip_spaces_app.
Qed.

Lemma lstrip_keep c s : sp c = false -> Py.lstrip_with sp (c :: s) = c :: s.
Proof. intros H. simpl. by rewrite H. Qed.

(** What [lstrip_with] removes is a run of spaces, and what it leaves is
    empty or starts with another character. *)
Lemma lstrip_decompose s :
  exists ws, s = ws ++ Py.lstrip_with sp s
    /\ Forall (fun c => sp c = true) ws
    /\ (Py.lstrip_with sp s = []
        \/ exists c r, Py.lstrip_with sp s = c :: r /\ sp c = false).
Proof.
  induction s as [|c s (ws & Heq & Hws & Hrest)].
  - exists []. repeat split; [constructor|by left].
  - simpl. destruct (sp c) eqn:Hc.
    + exists (c :: ws). split; [by rewrite Heq at 1|].
      split; [by constructor|done].
    + exists []. repeat split; [constructor|]. right. by exists c, s.
Qed.

Lemma strip_spaces ws :
  Forall (fun c => sp c = true) ws -> Py.strip_with sp ws = [].
Proof.
  intros H. unfold Py.strip_with. by rewrite (lstrip_spaces ws) by done.
Qed.

Lemma strip_surrounded wl s wr :
  Forall (fun c => sp c = true) wl ->
  Forall (fun c => sp c = true) wr ->
  Py.strip_with sp (wl ++ s ++ wr) = Py.strip_with sp s.
Proof.
  intros Hl Hr. unfold Py.strip_with. rewrite lstrip_spaces_app by done.
  destruct (lstrip_decompose s) as (ws & Heq & Hws & [Hnil|(c & r & Hcr & Hc)]).
  - rewrite Hnil. rewrite Hnil, app_nil_r in Heq. subst ws.
    by rewrite (lstrip_spaces (s ++ wr)) by (by apply Forall_app).
  - rewrite Hcr. rewrite Hcr in Heq. rewrite Heq.
    rewrite <- app_assoc, lstrip_spaces_app by done.
    rewrite <- app_comm_cons, lstrip_keep by done.
    rewrite app_comm_cons, reverse_app.
    by rewrite lstrip_spaces_app by (by apply Forall_reverse).
Qed.

End strip_facts.

Section decode_app.
Implicit Types (bs : list Z) (s : text).

Lemma utf8_decode_app_aux (n : nat) :
  forall bs bs' s, (length bs <= n)%nat -> Py.utf8_decode bs = Some s ->
                   Py.utf8_decode (bs ++ bs') = (s ++.) <$> Py.utf8_decode bs'.
Proof.
  induction n as [|n IH]; intros bs bs' s Hlen Hs.
  { destruct bs; [|simpl in Hlen; lia]. simpl in *. injection Hs as <-.
    by destruct (Py.utf8_decode bs'). }
  destruct bs as [|b0 r0].
  { simpl in *. injection Hs as <-. by destruct (Py.utf8_decode bs'). }
  simpl in Hlen. rewrite utf8_decode_cons in Hs.
  rewrite <- app_comm_cons, utf8_decode_cons.
  destruct (b0 <? 0x80).
  { apply fmap_Some in Hs as (s' & Hs' & ->).
    rewrite (IH r0 bs' s') by (lia || done).
    by destruct (Py.utf8_decode bs'). }
  destruct (Py.in_range 0xC2 0xDF b0).
  { destruct r0 as [|b1 r1]; [done|]. simpl in Hlen.
    rewrite <- app_comm_cons. destruct (Py.is_cont b1); [|done].
    apply fmap_Some in Hs as (s' & Hs' & ->).
    rewrite (IH r1 bs' s') by (lia || done).
    by destruct (Py.utf8_decode bs'). }
  destruct (Py.in_range 0xE0 0xEF b0).
  { destruct r0 as [|b1 [|b2 r2]]; [done..|]. simpl in Hlen.
    rewrite <- !app_comm_cons. destruct (_ && _); [|done].
    apply fmap_Some in Hs as (s' & Hs' & ->).
    rewrite (IH r2 bs' s') by (lia || done).
    by destruct (Py.utf8_decode bs'). }
  destruct (Py.in_range 0xF0 0xF4 b0); [|done].
  destruct r0 as [|b1 [|b2 [|b3 r3]]]; [done..|]. simpl in Hlen.
  rewrite <- !app_comm_cons. destruct (_ && _); [|done].
  apply fmap_Some in Hs as (s' & Hs' & ->).
  rewrite (IH r3 bs' s') by (lia || done).
  by destruct (Py.utf8_decode bs').
Qed.

Lemma ascii_not_second w lo hi :
  w < 0x80 -> 0x80 <= lo -> Py.in_range lo hi w = false.
Proof.
  intros Hw Hlo. unfold Py.in_range.
  destruct (Z.leb_spec lo w); [lia|done].
Qed.

Lemma ascii_not_cont w : w < 0x80 -> Py.is_cont w = false.
Proof. intros Hw. by apply ascii_not_second. Qed.

(** ASCII bytes after an ill-formed sequence do not repair it. *)
Lemma utf8_decode_None_app_aux (n : nat) :
  forall bs ws, (length bs <= n)%nat -> Forall (fun b => b < 0x80) ws ->
                Py.utf8_decode bs = None -> Py.utf8_decode (bs ++ ws) = None.
Proof.
  induction n as [|n IH]; intros bs ws Hlen Hws Hn.
  { destruct bs; [done|simpl in Hlen; lia]. }
  destruct bs as [|b0 r0]; [done|].
  simpl in Hlen. rewrite utf8_decode_cons in Hn.
  rewrite <- app_comm_cons, utf8_decode_cons.
  destruct (b0 <? 0x80).
  { apply fmap_None in Hn. by rewrite (IH r0 ws) by (lia || done). }
  destruct (Py.in_range 0xC2 0xDF b0).
  { destruct r0 as [|b1 r1].
    - destruct Hws as [|w ws Hw _]; [done|]. simpl.
      by rewrite ascii_not_cont.
    - simpl in Hlen. rewrite <- app_comm_cons.
      destruct (Py.is_cont b1); [|done].
      apply fmap_None in Hn. by rewrite (IH r1 ws) by (lia || done). }
  destruct (Py.in_range 0xE0 0xEF b0).
  { destruct r0 as [|b1 [|b2 r2]].
    - destruct Hws as [|w ws Hw Hws]; [done|]. simpl.
      destruct ws as [|w2 ws]; [done|].
      rewrite (ascii_not_second w); [done..|]. by destruct (b0 =? 0xE0).
    - destruct Hws as [|w ws Hw Hws]; [done|]. simpl.
      by rewrite (ascii_not_cont w), andb_false_r.
    - simpl in Hlen. rewrite <- !app_comm_cons.
      destruct (_ && _); [|done].
      apply fmap_None in Hn. by rewrite (IH r2 ws) by (lia || done). }
  destruct (Py.in_range 0xF0 0xF4 b0); [|done].
  destruct r0 as [|b1 [|b2 [|b3 r3]]].
  - destruct Hws as [|w ws Hw Hws]; [done|]. simpl.
    destruct ws as [|w2 [|w3 ws]]; [done..|].
    rewrite (ascii_not_second w); [done..|]. by destruct (b0 =? 0xF0).
  - destruct Hws as [|w ws Hw Hws]; [done|]. simpl.
    destruct ws as [|w2 ws]; [done|].
    by rewrite (ascii_not_cont w), andb_false_r.
  - destruct Hws as [|w ws Hw Hws]; [done|]. simpl.
    by rewrite (ascii_not_cont w), andb_false_r.
  - simpl in Hlen. rewrite <- !app_comm_cons.
    destruct (_ && _); [|done].
    apply fmap_None in Hn. by rewrite (IH r3 ws) by (lia || done).
Qed.

Lemma utf8_decode_app bs bs' s s' :
  Py.utf8_decode bs = Some s -> Py.utf8_decode bs' = Some s' ->
  Py.utf8_decode (bs ++ bs') = Some (s ++ s').
Proof.
  intros Hs Hs'. rewrite (utf8_decode_app_aux (length bs) bs bs' s) by done.
  by rewrite Hs'.
Qed.

Lemma utf8_decode_ascii_suffix bs ws :
  Forall (fun b => b < 0x80) ws ->
  Py.utf8_decode (bs ++ ws) = (.++ ws) <$> Py.utf8_decode bs.
Proof.
  intros Hws. destruct (Py.utf8_decode bs) as [s|] eqn:Hs; simpl.
  - apply utf8_decode_app; [done|]. by apply utf8_decode_ascii.
  - by apply (utf8_decode_None_app_aux (length bs)).
Qed.

Lemma ascii_space_vals (ws : bytes) :
  Forall (fun b => ascii_space b = true) ws ->
  Forall (fun b => b < 0x80) (Py.byte_val <$> ws)
  /\ Forall (fun c => Py.isspace c = true) (Py.byte_val <$> ws).
Proof.
  intros H. split; apply Forall_fmap; eapply Forall_impl; try exact H;
    intros b Hb; unfold ascii_space in Hb; simpl;
    apply andb_true_iff in Hb as [Hlt Hsp]; [lia|done].
Qed.

(** Whitespace bytes around a payload are decoded by themselves. *)
Lemma decode_padded (wl data wr : bytes) :
  Forall (fun b => ascii_space b = true) wl ->
  Forall (fun b => ascii_space b = true) wr ->
  Py.decode (wl ++ data ++ wr)
  = (fun s => (Py.byte_val <$> wl) ++ s ++ (Py.byte_val <$> wr))
      <$> Py.decode data.
Proof.
  intros [Hl _]%ascii_space_vals [Hr _]%ascii_space_vals.
  unfold Py.decode. rewrite !fmap_app.
  rewrite utf8_decode_ascii_app, utf8_decode_ascii_suffix by done.
  by destruct (Py.utf8_decode _).
Qed.

End decode_app.

(** X7: a payload that decodes to nothing but whitespace, the empty
    payload included, is reported as an unexpected format with an empty
    text; it is neither emitted nor treated as an error. *)
Theorem blank_payload_is_unexpected_format (data : bytes) (s : text) :
  Py.decode data = Some s ->
  Forall (fun c => Py.isspace c = true) s ->
  handle_xbee_message data = UnexpectedFormat [].
Proof.
  intros Hd Hs. unfold handle_xbee_message. rewrite Hd. simpl.
  unfold Py.strip. by rewrite strip_spaces.
Qed.

Lemma blank_payload_is_unexpected_format_witness :
  Py.decode [xc2; xa0; x20; x0d; x0a] = Some [0xA0; 0x20; 0x0D; 0x0A]
  /\ Forall (fun c => Py.isspace c = true) [0xA0; 0x20; 0x0D; 0x0A]
  /\ handle_xbee_message [xc2; xa0; x20; x0d; x0a] = UnexpectedFormat [].
Proof.
  assert (Hd : Py.decode [xc2; xa0; x20; x0d; x0a]
               = Some [0xA0; 0x20; 0x0D; 0x0A]) by reflexivity.
  assert (Hs : Forall (fun c => Py.isspace c = true) [0xA0; 0x20; 0x0D; 0x0A])
    by (repeat constructor).
  split; [exact Hd|]. split; [exact Hs|].
  exact (blank_payload_is_unexpected_format _ _ Hd Hs).
Defined.

(** X8: whitespace bytes before and after a payload change nothing: the
    handler emits the same dictionary, prints the same unexpected-format
    text, raises the same [ValueError], or fails to decode as before. *)
Theorem surrounding_whitespace_is_ignored (wl data wr : bytes) :
  Forall (fun b => ascii_space b = true) wl ->
  Forall (fun b => ascii_space b = true) wr ->
  handle_xbee_message (wl ++ data ++ wr) = handle_xbee_message data.
Proof.
  intros Hl Hr. unfold handle_xbee_message.
  rewrite decode_padded by done.
  destruct (Py.decode data) as [s|]; simpl; [|done].
  apply ascii_space_vals in Hl as [_ Hl]. apply ascii_space_vals in Hr as [_ Hr].
  unfold Py.strip. by rewrite strip_surrounded.
Qed.

Lemma surrounding_whitespace_is_ignored_witness :
  Forall (fun b => ascii_space b = true) [x20; x09]
  /\ Forall (fun b => ascii_space b = true) [x0d; x0a]
  /\ handle_xbee_message ([x20; x09] ++ frame "1,2,3,4" ++ [x0d; x0a])
     = handle_xbee_message (frame "1,2,3,4").
Proof.
  assert (Hl : Forall (fun b => ascii_space b = true) [x20; x09])
    by (repeat constructor).
  assert (Hr : Forall (fun b => ascii_space b = true) [x0d; x0a])
    by (repeat constructor).
  split; [exact Hl|]. split; [exact Hr|].
  exact (surrounding_whitespace_is_ignored _ (frame "1,2,3,4") _ Hl Hr).
Defined.

(** * Further properties of the window *)

Section slice_facts.
Implicit Types (w : LiveGraphWindow) (key : string) (l : list value).

(** Whatever the window size, what is shown is the list less some of its
    first elements. *)
Lemma shown_suffix n l :
  exists k, (k <= length l)%nat /\ shown n l = drop k l.
Proof.
  unfold shown. destruct (Z.geb_spec (Py.len l) n) as [Hge|Hlt].
  - unfold Py.slice_from. eexists. split; [|reflexivity].
    unfold Py.len in *. destruct (Z.ltb_spec (- n) 0); lia.
  - exists 0%nat. split; [lia|done].
Qed.

Lemma new_window_lookup_inv n key l :
  data (new_window n) !! key = Some l -> key ∈ channels /\ l = [].
Proof.
  unfold new_window. simpl. intros H.
  repeat (apply lookup_insert_Some in H as [[<- <-]|[_ H]];
          [split; [unfold channels; in_list|done]|]).
  by rewrite lookup_empty in H.
Qed.

End slice_facts.

(** X9: every point handed to [setData] is a stored sample at its own
    position: the point [(x, y)] has [0 <= x < len(self.data[key])] and
    [self.data[key][x] == y], whatever the window size. *)
Theorem plotted_points_are_stored_samples
    (w : LiveGraphWindow) (key : string) (xs : list Z) (ys : list value)
    (i : nat) (x : Z) (y : value) :
  plot_channel w key = Some (xs, ys) ->
  xs !! i = Some x ->
  ys !! i = Some y ->
  0 <= x < total_received w key /\ stored w key !! Z.to_nat x = Some y.
Proof.
  intros Hplot Hx Hy.
  destruct (data w !! key) as [l|] eqn:Hl.
  2: { unfold plot_channel in Hplot. by rewrite Hl in Hplot. }
  rewrite (plot_channel_eq _ _ l Hl) in Hplot. injection Hplot as <- <-.
  unfold total_received, stored. rewrite Hl. simpl.
  destruct (shown_suffix (window_size w) l) as (k & Hk & Heq).
  rewrite Heq in Hx, Hy. apply lookup_seqZ in Hx as [-> Hi].
  rewrite lookup_drop in Hy.
  unfold Py.len in *. rewrite length_drop in *.
  split; [lia|]. replace (Z.to_nat _) with (k + i)%nat by lia. done.
Qed.

Lemma plotted_points_are_stored_samples_witness :
  let w := appends [{["command"%string := VInt 1]};
                    {["command"%string := VInt 2]};
                    {["command"%string := VInt 3]}] (new_window 2) in
  plot_channel w "command" = Some ([1; 2], [VInt 2; VInt 3])
  /\ [1; 2] !! 1%nat = Some 2
  /\ [VInt 2; VInt 3] !! 1%nat = Some (VInt 3)
  /\ 0 <= 2 < total_received w "command"
  /\ stored w "command" !! Z.to_nat 2 = Some (VInt 3).
Proof.
  assert (H : plot_channel
                (appends [{["command"%string := VInt 1]};
                          {["command"%string := VInt 2]};
                          {["command"%string := VInt 3]}] (new_window 2))
                "command" = Some ([1; 2], [VInt 2; VInt 3]))
    by (vm_compute; reflexivity).
  split; [exact H|]. split; [reflexivity|]. split; [reflexivity|].
  exact (plotted_points_are_stored_samples _ _ _ _ 1%nat 2 (VInt 3)
           H eq_refl eq_refl).
Defined.

(** X10: in every window reached from [__init__] by calls of
    [update_data], [update_plot] raises no [KeyError]: it calls [setData]
    once for each of the four curves, in the order of [self.curves], with
    the slice of that channel's values and the indices that go with it. *)
Theorem update_plot_after_appends (n : Z) (ds : list (gmap string value)) :
  update_plot (appends ds (new_window n))
  = Some ((fun key =>
             let l := channel_value key <$> ds in
             (key, (seqZ (Py.len l - Py.len (shown n l)) (Py.len (shown n l)),
                    shown n l)))
          <$> channels).
Proof.
  assert (H : forall key, key ∈ channels ->
            plot_channel (appends ds (new_window n)) key
            = Some (seqZ (Py.len (channel_value key <$> ds)
                          - Py.len (shown n (channel_value key <$> ds)))
                         (Py.len (shown n (channel_value key <$> ds))),
                    shown n (channel_value key <$> ds))).
  { intros key Hk.
    rewrite (plot_channel_eq _ _ _ (stored_appends n ds key Hk)).
    by rewrite appends_window_size. }
  unfold update_plot. rewrite appends_curves. simpl.
  rewrite !H by (unfold channels; in_list). reflexivity.
Qed.

(** X11: how the shown window moves when a value is appended, for a window
    of [n >= 1] points: while the channel holds fewer than [n] values the
    new one is added to what is shown, and from then on the oldest shown
    value leaves as the new one enters. *)
Theorem window_slides_by_one (n : Z) (l : list value) (v : value) :
  1 <= n ->
  shown n (l ++ [v])
  = if Py.len l <? n then shown n l ++ [v] else drop 1 (shown n l) ++ [v].
Proof.
  intros Hn. rewrite !shown_last by done. rewrite len_app.
  change (Py.len [v]) with 1.
  destruct (Z.ltb_spec (Py.len l) n).
  - replace (Z.to_nat (Py.len l + 1 - n)) with 0%nat by lia.
    replace (Z.to_nat (Py.len l - n)) with 0%nat by lia. done.
  - rewrite drop_drop.
    rewrite drop_app_le by (unfold Py.len in *; lia).
    f_equal. f_equal. lia.
Qed.

Lemma window_slides_by_one_witness :
  1 <= 2
  /\ shown 2 ([VInt 1; VInt 2] ++ [VInt 3])
     = if Py.len [VInt 1; VInt 2] <? 2
       then shown 2 [VInt 1; VInt 2] ++ [VInt 3]
       else drop 1 (shown 2 [VInt 1; VInt 2]) ++ [VInt 3].
Proof.
  assert (H : 1 <= 2) by lia.
  split; [exact H|].
  exact (window_slides_by_one 2 [VInt 1; VInt 2] (VInt 3) H).
Defined.

(** X12: a window size that is not positive does not give an empty plot.
    With [window_size = 0] the slice [full_data[-0:]] is the whole list,
    and with a negative size [-m] the guard always holds and the slice
    [full_data[m:]] leaves out the first [m] values received. *)
Theorem nonpositive_window_size (n : Z) (l : list value) :
  n <= 0 ->
  shown n l = drop (Z.to_nat (- n)) l.
Proof.
  intros Hn. unfold shown.
  destruct (Z.geb_spec (Py.len l) n); [|unfold Py.len in *; lia].
  unfold Py.slice_from. destruct (Z.ltb_spec (- n) 0); [lia|].
  destruct (Z.le_gt_cases (- n) (Z.of_nat (length l))).
  - by rewrite Z.min_l by done.
  - rewrite Z.min_r by lia. rewrite Nat2Z.id, drop_all, drop_ge by lia. done.
Qed.

Lemma nonpositive_window_size_witness :
  0 <= 0
  /\ shown 0 [VInt 1; VInt 2; VInt 3]
     = drop (Z.to_nat (- 0)) [VInt 1; VInt 2; VInt 3].
Proof.
  assert (H : 0 <= 0) by lia.
  split; [exact H|].
  exact (nonpositive_window_size 0 [VInt 1; VInt 2; VInt 3] H).
Defined.

(** X13: a key of the dictionary that is not a key of [self.data] is
    ignored by [update_data], and [update_data] never adds or removes a
    channel. *)
Theorem update_data_ignores_other_keys
    (d : gmap string value) (w : LiveGraphWindow) (k : string) (v : value) :
  data w !! k = None ->
  update_data (<[k := v]> d) w = update_data d w
  /\ dom (data (update_data d w)) = dom (data w).
Proof.
  intros Hk. split.
  - unfold update_data. f_equal. apply map_eq. intros key.
    rewrite !map_lookup_imap.
    destruct (data w !! key) as [l|] eqn:Hl; simpl; [|done].
    assert (k <> key) by congruence.
    by rewrite lookup_insert_ne.
  - apply set_eq. intros key.
    by rewrite !elem_of_dom, update_data_lookup, fmap_is_Some.
Qed.

Lemma update_data_ignores_other_keys_witness :
  let d : gmap string value := {["command"%string := VInt 7]} in
  data init !! "battery"%string = None
  /\ update_data (<["battery"%string := VInt 9]> d) init = update_data d init
  /\ dom (data (update_data d init)) = dom (data init).
Proof.
  assert (H : data init !! "battery"%string = None) by reflexivity.
  split; [exact H|].
  exact (update_data_ignores_other_keys
           {["command"%string := VInt 7]} init "battery" (VInt 9) H).
Defined.

(** * The worker and the window together *)

(** X14: whatever frames arrive, every value stored in the window of the
    running application is a float made by the handler: the default [0]
    of [sensor_data.get(key, 0)] is never used there, because every
    emitted dictionary has all four keys. *)
Theorem stored_values_are_floats
    (n : Z) (frames : list bytes) (key : string) :
  Forall (fun v => is_float v = true)
         (stored (window (run frames (start (new_window n)))) key).
Proof.
  rewrite run_eq. simpl. unfold stored. rewrite appends_lookup.
  destruct (data (new_window n) !! key) as [l|] eqn:Hl; simpl; [|constructor].
  apply new_window_lookup_inv in Hl as [Hk ->]. simpl.
  apply Forall_fmap, Forall_forall. intros d Hd.
  apply list_elem_of_omap in Hd as (f & _ & Hf).
  unfold emission in Hf.
  destruct (handle_xbee_message f) eqn:Hh; try done.
  injection Hf as ->.
  destruct (emit_lookup _ _ key Hh Hk) as [x Hx].
  simpl. unfold channel_value. by rewrite Hx.
Qed.

(** * Properties of the device life cycle *)

Section life_facts.
Import Worker.
Implicit Types (w : BackendWorker) (steps : list step).

Lemma do_step_inv w st : life_inv w -> life_inv (do_step w st).
Proof.
  unfold life_inv. intros [H1 H2].
  destruct st as [[|]|]; simpl.
  - unfold Worker.start, made, open_now in *. simpl.
    rewrite !count_occ_app. simpl.
    destruct (xbee w) as [[? ? []]|]; simpl in *; lia.
  - unfold Worker.start, made, open_now in *. simpl.
    rewrite !count_occ_app. simpl.
    destruct (xbee w) as [[? ? []]|]; simpl in *; lia.
  - unfold Worker.stop, made, open_now in *.
    destruct w as [p b [[dp db []]|] cs]; simpl in H1, H2; simpl; [|lia..].
    rewrite !count_occ_app. simpl. lia.
Qed.

Lemma life_snoc steps st w :
  life (steps ++ [st]) w = do_step (life steps w) st.
Proof. unfold life. by rewrite foldl_app. Qed.

Lemma life_keeps_inv steps w : life_inv w -> life_inv (life steps w).
Proof.
  intros Hw. induction steps as [|st steps IH] using rev_ind; [done|].
  rewrite life_snoc. by apply do_step_inv.
Qed.

Lemma life_callbacks steps w :
  made AddDataReceivedCallback (life steps w)
  = (made AddDataReceivedCallback w
     + length (filter (fun st => opens st = true) steps))%nat.
Proof.
  induction steps as [|st steps IH] using rev_ind; [simpl; lia|].
  rewrite life_snoc, filter_app, length_app, Nat.add_assoc, <- IH.
  destruct st as [[|]|]; simpl.
  - unfold Worker.start, made. simpl. rewrite count_occ_app. simpl. lia.
  - unfold Worker.start, made. simpl. rewrite count_occ_app. simpl. lia.
  - unfold Worker.stop, made.
    destruct (xbee _) as [[? ? []]|]; simpl; rewrite ?count_occ_app;
      simpl; lia.
Qed.

End life_facts.

(** X15: [stop] may be called at any time and any number of times: on a
    worker that was never started it does nothing, a second [stop] does
    nothing more than the first, and after [stop] the worker refers to no
    open device. *)
Theorem stop_is_safe_to_repeat
    (w : Worker.BackendWorker) (xbee_port : string) (xbee_baud_rate : Z) :
  Worker.stop (Worker.init xbee_port xbee_baud_rate)
  = Worker.init xbee_port xbee_baud_rate
  /\ Worker.stop (Worker.stop w) = Worker.stop w
  /\ Worker.open_now (Worker.stop w) = false.
Proof.
  split; [done|].
  unfold Worker.stop, Worker.open_now.
  destruct w as [p b [[dp db []]|] cs]; simpl; done.
Qed.

(** X16: over any sequence of [start] and [stop] calls on a new worker,
    [close] is never called more often than a callback was registered, a
    callback is registered exactly once for each [start] whose port
    opened, and never without an [open] before it.  A worker whose port
    never opens therefore registers no callback and closes nothing. *)
Theorem close_only_after_successful_open
    (steps : list Worker.step) (xbee_port : string) (xbee_baud_rate : Z) :
  let w := Worker.life steps (Worker.init xbee_port xbee_baud_rate) in
  (Worker.made Worker.Close w
   <= Worker.made Worker.AddDataReceivedCallback w)%nat
  /\ (Worker.made Worker.AddDataReceivedCallback w
      <= Worker.made Worker.Open w)%nat
  /\ Worker.made Worker.AddDataReceivedCallback w
     = length (filter (fun st => Worker.opens st = true) steps).
Proof.
  intros w.
  assert (Hinv : Worker.life_inv w).
  { apply life_keeps_inv.
    unfold Worker.life_inv, Worker.made, Worker.open_now.
    simpl. lia. }
  destruct Hinv as [H1 H2].
  split; [|split; [done|]].
  - destruct (Worker.open_now w); lia.
  - unfold w. by rewrite life_callbacks.
Qed.
